(** * Backup camera: the Tk user interface ([user_interface.py])

    A shallow embedding of class [UserInteface] (the spelling is the
    source's).  The object's attributes become the fields of a record, each
    method a function on that record, and Tk's part (menus that run a
    command when an entry is chosen, variables shared with check and radio
    buttons, the queue of [after] callbacks) is written out as data that the
    functions below interpret.  A method that can raise returns the exception
    together with the state it leaves behind.

    What the file does not contain is kept as parameters of the section
    [Interface]: the image processing engine behind [process_next_frame], the
    parent application that receives the event-handler calls, the table of
    capture sources, and OpenCV's text rasteriser. *)

From Stdlib Require Import ZArith List String Bool Lia.
From Stdlib Require Import Strings.Byte.
Import ListNotations.

#[local] Open Scope list_scope.
#[local] Open Scope nat_scope.

Set Implicit Arguments.

(** ** Exceptions *)

Inductive Exception : Set :=
| IndexError        (* a tuple index out of range *)
| TypeError         (* [Image.fromarray]: cannot handle this data type *)
| cv2_error         (* an OpenCV assertion *)
| RuntimeError.     (* whatever the engine raises *)

Inductive Outcome (A : Type) : Type :=
| returned (a : A)
| raised (e : Exception).

Arguments returned {A} a.
Arguments raised {A} e.

Definition bind {A B : Type} (o : Outcome A) (k : A -> Outcome B)
    : Outcome B :=
  match o with
  | returned a => k a
  | raised e => raised e
  end.

(** ** Arrays *)

(** The element types of NumPy arrays. *)
Inductive DType : Set :=
| bool_ | uint8 | int8 | uint16 | int16 | uint32 | int32 | uint64 | int64
| float16 | float32 | float64.

(** An array: its shape (any number of axes), its element type and its
    buffer.  An image has the height and the width as its first two axes and
    the channels, if it has more than one, as the third. *)
Record MatLike : Set := mkMat {
  shape : list nat;
  dtype : DType;
  data : list byte
}.

(** [np.full(shape, fill, dtype=np.uint8)] for a two-axis shape. *)
Definition np_full (shp : nat * nat) (fill : byte) : MatLike :=
  {| shape := [fst shp; snd shp]; dtype := uint8;
     data := repeat fill (fst shp * snd shp) |}.

(** An array without elements: one of its axes is zero. *)
Definition empty (m : MatLike) : bool := existsb (Nat.eqb 0) (shape m).

(** *** Pillow *)

(** The modes of Pillow's images that an array can come out as. *)
Inductive Mode : Set := mode_1 | mode_L | mode_I | mode_F | mode_LA
                      | mode_RGB | mode_RGBA.

(** [Image.fromarray]'s table of the arrays it handles, by the axes after
    the first two and the element type (native byte order). *)
Definition _fromarray_typemap (m : MatLike) : option Mode :=
  match skipn 2 (shape m), dtype m with
  | [], bool_ => Some mode_1
  | [], uint8 => Some mode_L
  | [], int8 | [], uint16 | [], int16 | [], uint32 | [], int32 => Some mode_I
  | [], float32 | [], float64 => Some mode_F
  | [2], uint8 => Some mode_LA
  | [3], uint8 => Some mode_RGB
  | [4], uint8 => Some mode_RGBA
  | _, _ => None
  end.

(** [ImageTk.PhotoImage(Image.fromarray(obj))]: the image keeps the array it
    was made from; an array the table does not list raises [TypeError]. *)
Definition fromarray (obj : MatLike) : Outcome MatLike :=
  match _fromarray_typemap obj with
  | Some _ => returned obj
  | None => raised TypeError
  end.

(** ** What Tk holds *)

(** The callbacks the menus are given as [command=]. *)
Inductive Command : Set :=
| cmd_enter_park_assistant_mode
| cmd_enter_mirror_mode
| cmd_enter_config_mode
| cmd_show_image_properties
| cmd_show_guidelines_properties
| cmd_show_detection_properties
| cmd_change_guidelines_visibility
| cmd_handler_change_mute_sounds
| cmd_handler_set_source (source_index : Z).

Inductive IntVar : Set := var_selected_camera_mode | var_selected_source_index.
Inductive BooleanVar : Set := var_guidelines_hidden | var_mute_sounds.

Inductive MenuEntry : Set :=
| add_command (label : string) (command : Command)
| add_separator
| add_checkbutton (label : string) (variable : BooleanVar) (command : Command)
| add_radiobutton (label : string) (variable : IntVar) (value : Z)
                  (command : Command).

(** A menu made with Tk's default [tearoff] has the tear-off entry at index 0;
    the menu bar is such a menu, the three drop-down menus are made with
    [tearoff=0]. *)
Inductive MenubarEntry : Set :=
| tearoff
| add_cascade (label : string) (menu : list MenuEntry).

(** Calls received by the parent application (the event handler). *)
Inductive HandlerCall : Set :=
| set_guidelines_visibility (flag : bool)
| change_mute_sounds
| set_source (source_index : Z).

(** Where a widget was put with [place(x=, y=)]; [None] after [place_forget]
    or [pack_forget].  A placed widget of the mapped window is viewable. *)
Definition Placement : Set := option (Z * Z).

Definition winfo_viewable (p : Placement) : bool :=
  match p with Some _ => true | None => false end.

(** A callback registered with [after(ms, ...)].  The only callback the class
    registers is the lambda of [_updateVideoFrame], whose default argument
    [frame] is bound when the lambda is made. *)
Record Timer : Set := mkTimer {
  delay_ms : nat;
  frame : option MatLike
}.

Inductive HersheyFont : Set := FONT_HERSHEY_PLAIN.

(** ** The operating modes *)

Inductive OperatingMode : Set := ParkAssistant | RearviewMirror | Configuration.

(** ** The frame pipeline, as specified *)

Module Pipeline.

(** Modelled from the spec: the mode controller's stage table (section 4.6);
    the class that implements it is not part of [user_interface.py].  The
    pair is (guidelines, detection). *)
Definition activeStages (m : OperatingMode) : bool * bool :=
  match m with
  | ParkAssistant => (true, true)
  | RearviewMirror => (true, false)
  | Configuration => (false, false)
  end.

Record DetectionProperties : Set := mkDetection {
  threshold : Z;
  debounce : nat
}.

Inductive Reason : Set := NoReason | ObstacleNear.

Record AlertState : Set := mkAlert {
  active : bool;
  reason : Reason
}.

(** Modelled from the spec: the state of the pipeline between two ticks
    (sections 3 and 4): the mode, the detection properties with the mute
    flag apart, whether the guidelines are visible, what the source will
    deliver next ([None] for a frame that cannot be acquired), the detection
    engine's run-length counter, and what the last tick handed over: the
    alert classification and whether the alert was sounded. *)
Record State : Set := mkState {
  mode : OperatingMode;
  properties : DetectionProperties;
  muted : bool;
  guidelines_visible : bool;
  feed : list (option MatLike);
  run_length : nat;
  alert : AlertState;
  audible : bool
}.

Section Stages.

(** Image conditioning, the guideline overlay and the proximity analysis of
    one frame are the engine's own, and so is what a source delivers. *)
Variable condition : MatLike -> MatLike.
Variable render : MatLike -> MatLike.
Variable proximity : MatLike -> option Z.
Variable open_source : Z -> list (option MatLike).

(** Modelled from the spec: the detection engine (section 4.4), absent from
    the file.  The run-length counter grows while the proximity reading is
    under the threshold and falls back to zero otherwise; the alert triggers
    once the run reaches the debounce count.  It never reads the mute flag. *)
Definition detect (f : MatLike) (p : DetectionProperties) (run : nat)
    : bool * nat :=
  let run :=
    match proximity f with
    | Some d => if (d <? threshold p)%Z then S run else 0
    | None => 0
    end in
  (debounce p <=? run, run).

(** Modelled from the spec: one tick of the frame pipeline (section 4.7),
    absent from the file.  A frame that could not be acquired is handed on
    as [None] (the interface substitutes the placeholder) and resets the
    run.  The mute flag goes into the audible emission only. *)
Definition tick (st : State) : option MatLike * State :=
  let '(guidelines, detection) := activeStages (mode st) in
  let acquired := hd None (feed st) in
  let conditioned := option_map condition acquired in
  let composited :=
    if guidelines && guidelines_visible st
    then option_map render conditioned
    else conditioned in
  let '(triggered, run) :=
    if detection then
      match conditioned with
      | Some f => detect f (properties st) (run_length st)
      | None => (false, 0)
      end
    else (false, run_length st) in
  (composited,
   {| mode := mode st;
      properties := properties st;
      muted := muted st;
      guidelines_visible := guidelines_visible st;
      feed := tl (feed st);
      run_length := run;
      alert := {| active := triggered;
                  reason := if triggered then ObstacleNear else NoReason |};
      audible := triggered && negb (muted st) |}).

(** The engine's [process_next_frame], as the interface calls it. *)
Definition process_next_frame (st : State) : Outcome (option MatLike) * State :=
  let '(composited, st) := tick st in (returned composited, st).

(** Modelled from the spec: what the control path does to the pipeline when
    the interface calls the event handler (sections 5 and 6): it toggles the
    mute flag, sets the guidelines' visibility to the value it is handed,
    or opens another source. *)
Definition application (c : HandlerCall) (st : State) : State :=
  match c with
  | change_mute_sounds =>
      mkState (mode st) (properties st) (negb (muted st))
        (guidelines_visible st) (feed st) (run_length st) (alert st)
        (audible st)
  | set_guidelines_visibility flag =>
      mkState (mode st) (properties st) (muted st) flag (feed st)
        (run_length st) (alert st) (audible st)
  | set_source i =>
      mkState (mode st) (properties st) (muted st) (guidelines_visible st)
        (open_source i) (run_length st) (alert st) (audible st)
  end.

End Stages.

(** The pipeline with the mute flag and the audible emission blanked: what
    is left is what muting must not touch. *)
Definition unmuted (st : State) : State :=
  mkState (mode st) (properties st) false (guidelines_visible st) (feed st)
    (run_length st) (alert st) false.

End Pipeline.

(** Modelled from the spec: the source registry's reserved identifiers
    (section 3); the registry is not part of [user_interface.py]. *)
Definition NO_SOURCE : Z := (-1)%Z.
Definition FILE_SOURCE : Z := (-2)%Z.

(** ** A sample installation

    A camera that delivers the same small picture on every call, with the
    guidelines drawn on it unless the application was told to hide them. *)

Module Sample.

Definition picture (hidden : bool) : MatLike :=
  {| shape := [2; 4; 3]; dtype := uint8;
     data := repeat (if hidden then x00 else xff) 24 |}.

Definition process_next_frame (hidden : bool)
    : Outcome (option MatLike) * bool :=
  (returned (Some (picture hidden)), hidden).

Definition application (c : HandlerCall) (hidden : bool) : bool :=
  match c with
  | set_guidelines_visibility flag => flag
  | _ => hidden
  end.

Definition get_available_sources : list (string * Z) :=
  [("Camera 0"%string, 0%Z); ("Video file"%string, (-2)%Z)].

(** A rasteriser whose text falls outside so small a buffer. *)
Definition draw_text (img : MatLike) (text : string) (org : nat * nat)
    (fontFace : HersheyFont) (fontScale : nat) (color : byte * byte * byte)
    (thickness : nat) : list byte :=
  data img.

(** A four-channel picture of the display's height and width. *)
Definition bgra_picture : MatLike :=
  {| shape := [2; 4; 4]; dtype := uint8; data := repeat x7f 32 |}.

(** A picture of the wrong size. *)
Definition small_picture : MatLike :=
  {| shape := [1; 4; 3]; dtype := uint8; data := repeat x7f 12 |}.

(** A 16-bit picture of the display's height and width, no channel axis. *)
Definition deep_picture : MatLike :=
  {| shape := [2; 4]; dtype := uint16; data := repeat x7f 16 |}.

(** Pictures of the display's height and width that Pillow has no mode for:
    three channels of 64-bit floats, and five 8-bit channels. *)
Definition float_picture : MatLike :=
  {| shape := [2; 4; 3]; dtype := float64; data := repeat x00 192 |}.

Definition five_channel_picture : MatLike :=
  {| shape := [2; 4; 5]; dtype := uint8; data := repeat x7f 40 |}.

(** A camera that breaks down: it delivers the good picture [n] times, then
    the picture of floats once, and from then on it raises. *)
Definition faulty_process_next_frame (n : option nat)
    : Outcome (option MatLike) * option nat :=
  match n with
  | Some (S k) => (returned (Some (picture false)), Some k)
  | Some 0 => (returned (Some float_picture), None)
  | None => (raised RuntimeError, None)
  end.

Definition quiet_application (c : HandlerCall) (n : option nat)
    : option nat := n.

End Sample.

(** ** The interface object *)

Section Interface.

(** [ImageProcessingEngine]: its state, and [process_next_frame], which
    returns the next frame ([None] when there is none) or raises, and leaves
    the engine in a new state either way. *)
Variable Engine : Type.
Variable process_next_frame : Engine -> Outcome (option MatLike) * Engine.

(** What a call of the parent [Application] does to the engine. *)
Variable application : HandlerCall -> Engine -> Engine.

(** [ImageReceiver.get_available_sources()]: names and identifiers, in the
    order the dictionary yields them. *)
Variable get_available_sources : list (string * Z).

(** The pixels [cv.putText] leaves in the buffer it draws on. *)
Variable draw_text :
  MatLike -> string -> nat * nat -> HersheyFont -> nat ->
  byte * byte * byte -> nat -> list byte.

(** [cv.putText]: it draws into the buffer it is given, and raises on a
    buffer without elements. *)
Definition putText (img : MatLike) (text : string) (org : nat * nat)
    (fontFace : HersheyFont) (fontScale : nat) (color : byte * byte * byte)
    (thickness : nat) : Outcome MatLike :=
  if empty img then raised cv2_error
  else
    returned
      {| shape := shape img; dtype := dtype img;
         data := draw_text img text org fontFace fontScale color thickness |}.

Record UserInteface : Type := mkUI {
  _display_size : nat * nat;              (* (height, width) *)
  _video_source : Engine;
  _event_handler : list HandlerCall;      (* calls made so far, oldest first *)
  _guidelines_hidden : bool;
  _mute_sounds : bool;
  _selected_camera_mode : Z;
  _selected_source_index : Z;
  _menubar : list MenubarEntry;
  _mode_label : string;                   (* the label's text *)
  _mute_label : Placement;
  _image_properties_frame : Placement;
  _guidelines_properties_frame : Placement;
  _detection_properties_frame : Placement;
  _display : option MatLike;              (* [photo_image] of the video label *)
  after_queue : list Timer                (* pending [after] callbacks *)
}.

(** *** Attribute updates *)

Definition with_video_source (v : Engine) (s : UserInteface) :=
  mkUI (_display_size s) v (_event_handler s) (_guidelines_hidden s)
    (_mute_sounds s) (_selected_camera_mode s) (_selected_source_index s)
    (_menubar s) (_mode_label s) (_mute_label s) (_image_properties_frame s)
    (_guidelines_properties_frame s) (_detection_properties_frame s)
    (_display s) (after_queue s).

Definition with_event_handler (v : list HandlerCall) (s : UserInteface) :=
  mkUI (_display_size s) (_video_source s) v (_guidelines_hidden s)
    (_mute_sounds s) (_selected_camera_mode s) (_selected_source_index s)
    (_menubar s) (_mode_label s) (_mute_label s) (_image_properties_frame s)
    (_guidelines_properties_frame s) (_detection_properties_frame s)
    (_display s) (after_queue s).

Definition with_guidelines_hidden (v : bool) (s : UserInteface) :=
  mkUI (_display_size s) (_video_source s) (_event_handler s) v
    (_mute_sounds s) (_selected_camera_mode s) (_selected_source_index s)
    (_menubar s) (_mode_label s) (_mute_label s) (_image_properties_frame s)
    (_guidelines_properties_frame s) (_detection_properties_frame s)
    (_display s) (after_queue s).

Definition with_mute_sounds (v : bool) (s : UserInteface) :=
  mkUI (_display_size s) (_video_source s) (_event_handler s)
    (_guidelines_hidden s) v (_selected_camera_mode s)
    (_selected_source_index s) (_menubar s) (_mode_label s) (_mute_label s)
    (_image_properties_frame s) (_guidelines_properties_frame s)
    (_detection_properties_frame s) (_display s) (after_queue s).

Definition with_selected_camera_mode (v : Z) (s : UserInteface) :=
  mkUI (_display_size s) (_video_source s) (_event_handler s)
    (_guidelines_hidden s) (_mute_sounds s) v (_selected_source_index s)
    (_menubar s) (_mode_label s) (_mute_label s) (_image_properties_frame s)
    (_guidelines_properties_frame s) (_detection_properties_frame s)
    (_display s) (after_queue s).

Definition with_selected_source_index (v : Z) (s : UserInteface) :=
  mkUI (_display_size s) (_video_source s) (_event_handler s)
    (_guidelines_hidden s) (_mute_sounds s) (_selected_camera_mode s) v
    (_menubar s) (_mode_label s) (_mute_label s) (_image_properties_frame s)
    (_guidelines_properties_frame s) (_detection_properties_frame s)
    (_display s) (after_queue s).

Definition with_menubar (v : list MenubarEntry) (s : UserInteface) :=
  mkUI (_display_size s) (_video_source s) (_event_handler s)
    (_guidelines_hidden s) (_mute_sounds s) (_selected_camera_mode s)
    (_selected_source_index s) v (_mode_label s) (_mute_label s)
    (_image_properties_frame s) (_guidelines_properties_frame s)
    (_detection_properties_frame s) (_display s) (after_queue s).

Definition with_mode_label (v : string) (s : UserInteface) :=
  mkUI (_display_size s) (_video_source s) (_event_handler s)
    (_guidelines_hidden s) (_mute_sounds s) (_selected_camera_mode s)
    (_selected_source_index s) (_menubar s) v (_mute_label s)
    (_image_properties_frame s) (_guidelines_properties_frame s)
    (_detection_properties_frame s) (_display s) (after_queue s).

Definition with_mute_label (v : Placement) (s : UserInteface) :=
  mkUI (_display_size s) (_video_source s) (_event_handler s)
    (_guidelines_hidden s) (_mute_sounds s) (_selected_camera_mode s)
    (_selected_source_index s) (_menubar s) (_mode_label s) v
    (_image_properties_frame s) (_guidelines_properties_frame s)
    (_detection_properties_frame s) (_display s) (after_queue s).

Definition with_image_properties_frame (v : Placement) (s : UserInteface) :=
  mkUI (_display_size s) (_video_source s) (_event_handler s)
    (_guidelines_hidden s) (_mute_sounds s) (_selected_camera_mode s)
    (_selected_source_index s) (_menubar s) (_mode_label s) (_mute_label s)
    v (_guidelines_properties_frame s) (_detection_properties_frame s)
    (_display s) (after_queue s).

Definition with_guidelines_properties_frame (v : Placement)
    (s : UserInteface) :=
  mkUI (_display_size s) (_video_source s) (_event_handler s)
    (_guidelines_hidden s) (_mute_sounds s) (_selected_camera_mode s)
    (_selected_source_index s) (_menubar s) (_mode_label s) (_mute_label s)
    (_image_properties_frame s) v (_detection_properties_frame s)
    (_display s) (after_queue s).

Definition with_detection_properties_frame (v : Placement)
    (s : UserInteface) :=
  mkUI (_display_size s) (_video_source s) (_event_handler s)
    (_guidelines_hidden s) (_mute_sounds s) (_selected_camera_mode s)
    (_selected_source_index s) (_menubar s) (_mode_label s) (_mute_label s)
    (_image_properties_frame s) (_guidelines_properties_frame s) v
    (_display s) (after_queue s).

Definition with_display (v : option MatLike) (s : UserInteface) :=
  mkUI (_display_size s) (_video_source s) (_event_handler s)
    (_guidelines_hidden s) (_mute_sounds s) (_selected_camera_mode s)
    (_selected_source_index s) (_menubar s) (_mode_label s) (_mute_label s)
    (_image_properties_frame s) (_guidelines_properties_frame s)
    (_detection_properties_frame s) v (after_queue s).

Definition with_after_queue (v : list Timer) (s : UserInteface) :=
  mkUI (_display_size s) (_video_source s) (_event_handler s)
    (_guidelines_hidden s) (_mute_sounds s) (_selected_camera_mode s)
    (_selected_source_index s) (_menubar s) (_mode_label s) (_mute_label s)
    (_image_properties_frame s) (_guidelines_properties_frame s)
    (_detection_properties_frame s) (_display s) v.

(** A method call on the event handler: the call is recorded, and the
    application does to the engine what it does. *)
Definition call_handler (c : HandlerCall) (s : UserInteface) : UserInteface :=
  with_event_handler (_event_handler s ++ [c])
    (with_video_source (application c (_video_source s)) s).

(** [widget.after(ms, callback)] *)
Definition after (ms : nat) (captured : option MatLike) (s : UserInteface)
    : UserInteface :=
  with_after_queue (after_queue s ++ [mkTimer ms captured]) s.

(** *** Methods of the class *)

Definition _hide_properties_frame (s : UserInteface) : UserInteface :=
  if winfo_viewable (_guidelines_properties_frame s) then
    with_guidelines_properties_frame None s
  else if winfo_viewable (_image_properties_frame s) then
    with_image_properties_frame None s
  else if winfo_viewable (_detection_properties_frame s) then
    with_detection_properties_frame None s
  else s.

(** [menu.index('end')]: the index of the last entry.  The menu bar always
    holds its tear-off entry, so it is never empty. *)
Definition index_end (m : list MenubarEntry) : nat := List.length m - 1.

(** [menu.delete(i)] *)
Definition menu_delete (i : nat) (m : list MenubarEntry) : list MenubarEntry :=
  firstn i m ++ skipn (S i) m.

Definition _reload_default_layout (s : UserInteface) : UserInteface :=
  let s :=
    if 2 <? index_end (_menubar s) then
      with_menubar (menu_delete (index_end (_menubar s)) (_menubar s)) s
    else s in
  _hide_properties_frame s.

Definition _enter_mirror_mode (s : UserInteface) : UserInteface :=
  let s := _reload_default_layout s in
  with_mode_label "REARVIEW MIRROR" s.

Definition _enter_park_assistant_mode (s : UserInteface) : UserInteface :=
  let s := _reload_default_layout s in
  with_mode_label "PARK ASSISTANT" s.

Definition _config_menu : list MenuEntry :=
  [ add_command "Open image properties" cmd_show_image_properties;
    add_separator;
    add_checkbutton "Guidlines hidden" var_guidelines_hidden
      cmd_change_guidelines_visibility;
    add_command "Open guidelines properties" cmd_show_guidelines_properties;
    add_separator;
    add_checkbutton "Mute alerts" var_mute_sounds
      cmd_handler_change_mute_sounds;
    add_command "Open detection properties" cmd_show_detection_properties ].

Definition _enter_config_mode (s : UserInteface) : UserInteface :=
  let s := _reload_default_layout s in
  let s := with_mode_label "CONFIGURATION" s in
  with_menubar (_menubar s ++ [add_cascade "Configuration" _config_menu]) s.

Definition _show_image_properties (s : UserInteface) : UserInteface :=
  let s := _hide_properties_frame s in
  with_image_properties_frame (Some (10, 40)%Z) s.

Definition _show_guidelines_properties (s : UserInteface) : UserInteface :=
  let s := _hide_properties_frame s in
  with_guidelines_properties_frame (Some (10, 40)%Z) s.

Definition _show_detection_properties (s : UserInteface) : UserInteface :=
  let s := _hide_properties_frame s in
  with_detection_properties_frame (Some (10, 40)%Z) s.

Definition change_guidelines_visibility (s : UserInteface) : UserInteface :=
  call_handler (set_guidelines_visibility (_guidelines_hidden s)) s.

Definition _source_menu : list MenuEntry :=
  map (fun src : string * Z =>
         add_radiobutton (fst src) var_selected_source_index (snd src)
           (cmd_handler_set_source (snd src)))
      get_available_sources.

Definition _init_source_menu (s : UserInteface) : UserInteface :=
  let s := with_selected_source_index 0%Z s in        (* [tk.IntVar()] *)
  let s := with_selected_source_index (-2)%Z s in
  with_menubar (_menubar s ++ [add_cascade "Source" _source_menu]) s.

Definition _mode_menu : list MenuEntry :=
  [ add_radiobutton "Park assistant" var_selected_camera_mode 0%Z
      cmd_enter_park_assistant_mode;
    add_radiobutton "Rearview mirror" var_selected_camera_mode 1%Z
      cmd_enter_mirror_mode;
    add_radiobutton "Configuration" var_selected_camera_mode 2%Z
      cmd_enter_config_mode ].

Definition _init_camera_mode_menu (s : UserInteface) : UserInteface :=
  let s := with_selected_camera_mode 0%Z s in         (* [tk.IntVar()] *)
  let s := with_selected_camera_mode 1%Z s in
  with_menubar (_menubar s ++ [add_cascade "Mode" _mode_menu]) s.

(** [__init__]: [display_size] is (width, height) as the window geometry
    takes it, and is stored as (height, width). *)
Definition __init__ (display_size : nat * nat) (video_source : Engine)
    : UserInteface :=
  let s :=
    {| _display_size := (snd display_size, fst display_size);
       _video_source := video_source;
       _event_handler := [];
       _guidelines_hidden := false;
       _mute_sounds := false;
       _selected_camera_mode := 0%Z;
       _selected_source_index := 0%Z;
       _menubar := [tearoff];
       _mode_label := "";
       _mute_label := None;
       _image_properties_frame := None;
       _guidelines_properties_frame := None;
       _detection_properties_frame := None;
       _display := None;
       after_queue := [] |} in
  let s := _init_camera_mode_menu s in
  let s := _init_source_menu s in
  let s := with_mute_label None s in                  (* [pack_forget()] *)
  _enter_mirror_mode s.

Definition mute (s : UserInteface) : UserInteface :=
  if _mute_sounds s then
    with_mute_label
      (Some (Z.of_nat (snd (_display_size s)) - 55, 10)%Z) s
  else
    with_mute_label None s.

Definition _generate_placeholder_image (s : UserInteface)
    : Outcome MatLike :=
  let image := np_full (_display_size s) x00 in
  putText image "<NO VIDEO TO DISPLAY>"
    (snd (_display_size s) / 4, fst (_display_size s) / 2)
    FONT_HERSHEY_PLAIN 2 (xff, xff, xff) 1.

(** The test of [_updateVideoFrame] (lines 181-182): is the frame to be
    replaced?  [or] stops at the first operand that holds, and [shape[i]]
    raises on an array with fewer axes. *)
Definition frame_refused (s : UserInteface) (video_frame : option MatLike)
    : Outcome bool :=
  match video_frame with
  | None => returned true
  | Some f =>
      match nth_error (shape f) 0 with
      | None => raised IndexError
      | Some height =>
          if negb (height =? fst (_display_size s)) then returned true
          else
            match nth_error (shape f) 1 with
            | None => raised IndexError
            | Some width => returned (negb (width =? snd (_display_size s)))
            end
      end
  end.

(** The image [_updateVideoFrame] makes for the video label (lines
    181-184): of the placeholder when the frame is refused, of the frame
    itself otherwise. *)
Definition shown_frame (s : UserInteface) (video_frame : option MatLike)
    : Outcome MatLike :=
  bind (frame_refused s video_frame) (fun refused =>
  bind (match video_frame with
        | Some f =>
            if refused then _generate_placeholder_image s else returned f
        | None => _generate_placeholder_image s
        end)
       fromarray).

(** [_updateVideoFrame]: the exception, if one is raised, and the state the
    call leaves.  Nothing has changed when the image cannot be made; the
    label has its new image, and the engine has moved, when
    [process_next_frame] raises (line 187), and [after] is not reached. *)
Definition _updateVideoFrame (video_frame : option MatLike)
    (s : UserInteface) : option Exception * UserInteface :=
  match shown_frame s video_frame with
  | raised e => (Some e, s)
  | returned video_frame =>
      let s := with_display (Some video_frame) s in
      match process_next_frame (_video_source s) with
      | (raised e, engine) => (Some e, with_video_source engine s)
      | (returned next_frame, engine) =>
          (None, after 20 next_frame (with_video_source engine s))
      end
  end.

(** [show]: an exception leaves before [mainloop] is entered. *)
Definition show (s : UserInteface) : option Exception * UserInteface :=
  match process_next_frame (_video_source s) with
  | (raised e, engine) => (Some e, with_video_source engine s)
  | (returned first_frame, engine) =>
      _updateVideoFrame first_frame (with_video_source engine s)
  end.

(** *** Tk's event loop

    Tk reports an exception a callback raises and goes on with the next
    event: the state is the one the callback left. *)

Definition run_command (c : Command) (s : UserInteface) : UserInteface :=
  match c with
  | cmd_enter_park_assistant_mode => _enter_park_assistant_mode s
  | cmd_enter_mirror_mode => _enter_mirror_mode s
  | cmd_enter_config_mode => _enter_config_mode s
  | cmd_show_image_properties => _show_image_properties s
  | cmd_show_guidelines_properties => _show_guidelines_properties s
  | cmd_show_detection_properties => _show_detection_properties s
  | cmd_change_guidelines_visibility => change_guidelines_visibility s
  | cmd_handler_change_mute_sounds => call_handler change_mute_sounds s
  | cmd_handler_set_source i => call_handler (set_source i) s
  end.

Definition toggle (v : BooleanVar) (s : UserInteface) : UserInteface :=
  match v with
  | var_guidelines_hidden =>
      with_guidelines_hidden (negb (_guidelines_hidden s)) s
  | var_mute_sounds => with_mute_sounds (negb (_mute_sounds s)) s
  end.

Definition set_var (v : IntVar) (value : Z) (s : UserInteface)
    : UserInteface :=
  match v with
  | var_selected_camera_mode => with_selected_camera_mode value s
  | var_selected_source_index => with_selected_source_index value s
  end.

(** Choosing a menu entry: a check button flips its variable and a radio
    button stores its value, and then the entry's command runs. *)
Definition invoke (e : MenuEntry) (s : UserInteface) : UserInteface :=
  match e with
  | add_command _ c => run_command c s
  | add_separator => s
  | add_checkbutton _ v c => run_command c (toggle v s)
  | add_radiobutton _ v value c => run_command c (set_var v value s)
  end.

Inductive Event : Set :=
| choose (menu entry : nat)
    (* the user picks entry [entry] of the drop-down at [menu] in the bar *)
| timer_fires
    (* the oldest pending [after] callback is due *)
| app_mute
| app_change_guidelines_visibility.
    (* the application calls a public method of the interface *)

Definition handle (ev : Event) (s : UserInteface) : UserInteface :=
  match ev with
  | choose menu entry =>
      match nth_error (_menubar s) menu with
      | Some (add_cascade _ entries) =>
          match nth_error entries entry with
          | Some e => invoke e s
          | None => s
          end
      | _ => s
      end
  | timer_fires =>
      match after_queue s with
      | t :: pending =>
          snd (_updateVideoFrame (frame t) (with_after_queue pending s))
      | [] => s
      end
  | app_mute => mute s
  | app_change_guidelines_visibility => change_guidelines_visibility s
  end.

Definition mainloop (events : list Event) (s : UserInteface) : UserInteface :=
  fold_left (fun s ev => handle ev s) events s.

(** *** Reading the state *)

(** The radio button of the 'Mode' menu that stands for each mode. *)
Definition mode_value (m : OperatingMode) : Z :=
  match m with
  | ParkAssistant => 0%Z
  | RearviewMirror => 1%Z
  | Configuration => 2%Z
  end.

Definition mode_text (m : OperatingMode) : string :=
  match m with
  | ParkAssistant => "PARK ASSISTANT"
  | RearviewMirror => "REARVIEW MIRROR"
  | Configuration => "CONFIGURATION"
  end.

(** Position of the mode's radio button in the 'Mode' menu. *)
Definition mode_entry (m : OperatingMode) : nat :=
  match m with
  | ParkAssistant => 0
  | RearviewMirror => 1
  | Configuration => 2
  end.

(** The positions of the cascades in the menu bar (0 is the tear-off). *)
Definition MODE_MENU : nat := 1.
Definition CONFIGURATION_MENU : nat := 3.

(** A mode-switch request: the user picks the mode's radio button. *)
Definition switch_mode (m : OperatingMode) : Event :=
  choose MODE_MENU (mode_entry m).

Definition is_configuration_cascade (e : MenubarEntry) : bool :=
  match e with
  | add_cascade l _ => String.eqb l "Configuration"
  | tearoff => false
  end.

Definition configuration_menu_shown (s : UserInteface) : bool :=
  existsb is_configuration_cascade (_menubar s).

(** Mode [m] is the one in effect: the selection variable holds its value and
    the layout is the one its [_enter_..._mode] method leaves. *)
Definition mode_active (s : UserInteface) (m : OperatingMode) : Prop :=
  _selected_camera_mode s = mode_value m
  /\ _mode_label s = mode_text m
  /\ configuration_menu_shown s
     = match m with Configuration => true | _ => false end.

(** How many of the three properties frames are on screen. *)
Definition viewable_properties_frames (s : UserInteface) : nat :=
  (if winfo_viewable (_image_properties_frame s) then 1 else 0)
  + (if winfo_viewable (_guidelines_properties_frame s) then 1 else 0)
  + (if winfo_viewable (_detection_properties_frame s) then 1 else 0).

(** The state the application runs the event loop from: built, then shown. *)
Definition started (display_size : nat * nat) (video_source : Engine)
    : UserInteface :=
  snd (show (__init__ display_size video_source)).

(** Events other than the timer. *)
Definition is_timer (ev : Event) : bool :=
  match ev with timer_fires => true | _ => false end.

Definition base_menubar : list MenubarEntry :=
  [tearoff; add_cascade "Mode" _mode_menu; add_cascade "Source" _source_menu].

Definition menubar_of (m : OperatingMode) : list MenubarEntry :=
  match m with
  | Configuration =>
      base_menubar ++ [add_cascade "Configuration" _config_menu]
  | _ => base_menubar
  end.

(** The state is the one mode [m] leaves: variable, label and menu bar agree
    on [m], and no two properties frames are on screen. *)
Record laid_out (s : UserInteface) (m : OperatingMode) : Prop := {
  lo_mode : _selected_camera_mode s = mode_value m;
  lo_label : _mode_label s = mode_text m;
  lo_menubar : _menubar s = menubar_of m;
  lo_frames : viewable_properties_frames s <= 1
}.

Definition mode_command (m : OperatingMode) : Command :=
  match m with
  | ParkAssistant => cmd_enter_park_assistant_mode
  | RearviewMirror => cmd_enter_mirror_mode
  | Configuration => cmd_enter_config_mode
  end.

Definition layout_fields (s : UserInteface) :=
  (_selected_camera_mode s, _mode_label s, _menubar s,
   (_image_properties_frame s, _guidelines_properties_frame s,
    _detection_properties_frame s)).

(** The three [_show_..._properties] methods, by the frame they place. *)
Inductive PropertiesFrame : Set :=
  image_properties | guidelines_properties | detection_properties.

Definition show_properties (which : PropertiesFrame) : Command :=
  match which with
  | image_properties => cmd_show_image_properties
  | guidelines_properties => cmd_show_guidelines_properties
  | detection_properties => cmd_show_detection_properties
  end.

Definition properties_frame (which : PropertiesFrame) (s : UserInteface)
    : Placement :=
  match which with
  | image_properties => _image_properties_frame s
  | guidelines_properties => _guidelines_properties_frame s
  | detection_properties => _detection_properties_frame s
  end.

(** The user opens the Configuration mode and checks 'Guidlines hidden'. *)
Definition hide_guidelines : list Event :=
  [switch_mode Configuration; choose CONFIGURATION_MENU 2].

(** ** Properties *)

Ltac unfold_methods :=
  unfold invoke, run_command, toggle, set_var, mute,
    _enter_park_assistant_mode, _enter_mirror_mode, _enter_config_mode,
    _show_image_properties, _show_guidelines_properties,
    _show_detection_properties, change_guidelines_visibility, call_handler,
    _reload_default_layout, _hide_properties_frame in *.

Ltac split_ifs :=
  repeat match goal with
         | |- context [if ?b then _ else _] => destruct b
         end.

(** *** What the frame update touches *)

(** Whether it returns or raises, [_updateVideoFrame] touches the video
    label, the engine and the pending callbacks, and nothing else. *)
Lemma updateVideoFrame_touches (video_frame : option MatLike)
    (s : UserInteface) :
  exists d e q,
    snd (_updateVideoFrame video_frame s)
    = with_after_queue q (with_video_source e (with_display d s)).
Proof.
  unfold _updateVideoFrame.
  destruct (shown_frame s video_frame) as [g|x]; simpl.
  - destruct (process_next_frame (_video_source s)) as [[next|x] engine];
      simpl.
    + exists (Some g), engine, (after_queue s ++ [mkTimer 20 next]).
      reflexivity.
    + exists (Some g), engine, (after_queue s); reflexivity.
  - exists (_display s), (_video_source s), (after_queue s).
    now destruct s.
Qed.

Lemma show_touches (s : UserInteface) :
  exists d e q,
    snd (show s)
    = with_after_queue q (with_video_source e (with_display d s)).
Proof.
  unfold show.
  destruct (process_next_frame (_video_source s)) as [[first|x] engine];
    simpl.
  - destruct (updateVideoFrame_touches first (with_video_source engine s))
      as (d & e & q & ->).
    exists d, e, q; reflexivity.
  - exists (_display s), engine, (after_queue s); reflexivity.
Qed.

Lemma updateVideoFrame_display_size (video_frame : option MatLike)
    (s : UserInteface) :
  _display_size (snd (_updateVideoFrame video_frame s)) = _display_size s.
Proof.
  destruct (updateVideoFrame_touches video_frame s) as (d & e & q & ->).
  reflexivity.
Qed.

Lemma show_display_size (s : UserInteface) :
  _display_size (snd (show s)) = _display_size s.
Proof. destruct (show_touches s) as (d & e & q & ->); reflexivity. Qed.

(** *** What each event leaves alone *)

Lemma invoke_after_queue (e : MenuEntry) (s : UserInteface) :
  after_queue (invoke e s) = after_queue s.
Proof.
  destruct e as [l c| |l v c|l v z c]; try destruct c; try destruct v;
    unfold_methods; simpl; split_ifs; reflexivity.
Qed.

Lemma invoke_display (e : MenuEntry) (s : UserInteface) :
  _display (invoke e s) = _display s.
Proof.
  destruct e as [l c| |l v c|l v z c]; try destruct c; try destruct v;
    unfold_methods; simpl; split_ifs; reflexivity.
Qed.

Lemma invoke_display_size (e : MenuEntry) (s : UserInteface) :
  _display_size (invoke e s) = _display_size s.
Proof.
  destruct e as [l c| |l v c|l v z c]; try destruct c; try destruct v;
    unfold_methods; simpl; split_ifs; reflexivity.
Qed.

Lemma handle_after_queue (ev : Event) (s : UserInteface) :
  is_timer ev = false -> after_queue (handle ev s) = after_queue s.
Proof.
  destruct ev as [menu entry| | |]; simpl; try discriminate; intros _.
  - destruct (nth_error (_menubar s) menu) as [[|l entries]|]; trivial.
    destruct (nth_error entries entry); trivial. apply invoke_after_queue.
  - unfold mute; split_ifs; reflexivity.
  - reflexivity.
Qed.

Lemma handle_display (ev : Event) (s : UserInteface) :
  is_timer ev = false -> _display (handle ev s) = _display s.
Proof.
  destruct ev as [menu entry| | |]; simpl; try discriminate; intros _.
  - destruct (nth_error (_menubar s) menu) as [[|l entries]|]; trivial.
    destruct (nth_error entries entry); trivial. apply invoke_display.
  - unfold mute; split_ifs; reflexivity.
  - reflexivity.
Qed.

Lemma handle_display_size (ev : Event) (s : UserInteface) :
  _display_size (handle ev s) = _display_size s.
Proof.
  destruct ev as [menu entry| | |]; simpl.
  - destruct (nth_error (_menubar s) menu) as [[|l entries]|]; trivial.
    destruct (nth_error entries entry); trivial. apply invoke_display_size.
  - destruct (after_queue s); trivial.
    now rewrite updateVideoFrame_display_size.
  - unfold mute; split_ifs; reflexivity.
  - reflexivity.
Qed.

Lemma mainloop_after_queue (evs : list Event) (s : UserInteface) :
  forallb (fun ev => negb (is_timer ev)) evs = true ->
  after_queue (mainloop evs s) = after_queue s.
Proof.
  revert s; induction evs as [|ev evs IH]; intros s; simpl; trivial.
  rewrite andb_true_iff, negb_true_iff; intros [Hev Hevs].
  change (after_queue (mainloop evs (handle ev s)) = after_queue s).
  now rewrite IH, handle_after_queue.
Qed.

Lemma mainloop_display (evs : list Event) (s : UserInteface) :
  forallb (fun ev => negb (is_timer ev)) evs = true ->
  _display (mainloop evs s) = _display s.
Proof.
  revert s; induction evs as [|ev evs IH]; intros s; simpl; trivial.
  rewrite andb_true_iff, negb_true_iff; intros [Hev Hevs].
  change (_display (mainloop evs (handle ev s)) = _display s).
  now rewrite IH, handle_display.
Qed.

Lemma mainloop_display_size (evs : list Event) (s : UserInteface) :
  _display_size (mainloop evs s) = _display_size s.
Proof.
  revert s; induction evs as [|ev evs IH]; intros s; simpl; trivial.
  change (_display_size (mainloop evs (handle ev s)) = _display_size s).
  now rewrite IH, handle_display_size.
Qed.

(** *** The layout invariant *)

Lemma mode_menu_entry (m : OperatingMode) :
  nth_error _mode_menu (mode_entry m) =
  Some (add_radiobutton
          match m with
          | ParkAssistant => "Park assistant"
          | RearviewMirror => "Rearview mirror"
          | Configuration => "Configuration"
          end var_selected_camera_mode (mode_value m) (mode_command m)).
Proof. destruct m; reflexivity. Qed.

Lemma mode_value_inj (m m' : OperatingMode) :
  mode_value m = mode_value m' -> m = m'.
Proof. destruct m, m'; simpl; congruence. Qed.

Lemma laid_out_active (s : UserInteface) (m : OperatingMode) :
  laid_out s m -> mode_active s m.
Proof.
  intros [Hm Hl Hb _]; repeat split; trivial.
  unfold configuration_menu_shown; rewrite Hb; destruct m; reflexivity.
Qed.

Lemma init_laid_out (display_size : nat * nat) (video_source : Engine) :
  laid_out (__init__ display_size video_source) RearviewMirror.
Proof. split; try reflexivity. change (0 <= 1); lia. Qed.

Lemma hide_viewable (s : UserInteface) :
  viewable_properties_frames s <= 1 ->
  viewable_properties_frames (_hide_properties_frame s) = 0.
Proof.
  destruct s as [ds vs eh gh ms cm si mb ml mu [p1|] [p2|] [p3|] d q];
    unfold viewable_properties_frames, _hide_properties_frame; simpl;
    intros; try lia; reflexivity.
Qed.

Lemma reload_laid_out (s : UserInteface) (m0 : OperatingMode) :
  _menubar s = menubar_of m0 ->
  viewable_properties_frames s <= 1 ->
  _menubar (_reload_default_layout s) = base_menubar
  /\ viewable_properties_frames (_reload_default_layout s) = 0
  /\ _selected_camera_mode (_reload_default_layout s)
     = _selected_camera_mode s.
Proof.
  intros Hb Hf.
  assert (E : exists s',
             _reload_default_layout s = _hide_properties_frame s'
             /\ _menubar s' = base_menubar
             /\ viewable_properties_frames s' = viewable_properties_frames s
             /\ _selected_camera_mode s' = _selected_camera_mode s).
  { unfold _reload_default_layout; rewrite Hb.
    destruct m0; simpl; eexists; (split; [reflexivity |]); repeat split;
      assumption. }
  destruct E as (s' & -> & Hb' & Hf' & Hm').
  rewrite <- Hf' in Hf; rewrite <- Hm', <- Hb'.
  split; [| split; [now apply hide_viewable |]];
    unfold _hide_properties_frame; split_ifs; reflexivity.
Qed.

Lemma enter_mode_laid_out (s : UserInteface) (m0 m : OperatingMode) :
  laid_out s m0 ->
  let s' := run_command (mode_command m)
              (with_selected_camera_mode (mode_value m) s) in
  laid_out s' m /\ viewable_properties_frames s' = 0.
Proof.
  intros [_ _ Hb Hf] s'.
  destruct (@reload_laid_out
              (with_selected_camera_mode (mode_value m) s) m0 Hb Hf)
    as (Rb & Rf & Rm).
  assert (F : viewable_properties_frames s' = 0) by (destruct m; exact Rf).
  split; [| exact F].
  split; [destruct m; exact Rm | destruct m; reflexivity | | lia].
  destruct m; try exact Rb.
  change (_menubar
            (_reload_default_layout
               (with_selected_camera_mode (mode_value Configuration) s))
          ++ [add_cascade "Configuration" _config_menu]
          = menubar_of Configuration).
  now rewrite Rb.
Qed.

Lemma laid_out_ext (s s' : UserInteface) (m : OperatingMode) :
  layout_fields s' = layout_fields s -> laid_out s m -> laid_out s' m.
Proof.
  unfold layout_fields; intros E [Hm Hl Hb Hf].
  injection E as E1 E2 E3 E4 E5 E6.
  split; try congruence.
  unfold viewable_properties_frames in *; now rewrite E4, E5, E6.
Qed.

Lemma updateVideoFrame_layout_fields (video_frame : option MatLike)
    (s : UserInteface) :
  layout_fields (snd (_updateVideoFrame video_frame s)) = layout_fields s.
Proof.
  destruct (updateVideoFrame_touches video_frame s) as (d & e & q & ->).
  reflexivity.
Qed.

Lemma show_layout_fields (s : UserInteface) :
  layout_fields (snd (show s)) = layout_fields s.
Proof. destruct (show_touches s) as (d & e & q & ->); reflexivity. Qed.

Lemma started_laid_out (display_size : nat * nat) (video_source : Engine) :
  laid_out (started display_size video_source) RearviewMirror.
Proof.
  eapply laid_out_ext; [apply show_layout_fields | apply init_laid_out].
Qed.

Lemma show_properties_viewable (which : PropertiesFrame) (s : UserInteface) :
  viewable_properties_frames s <= 1 ->
  let s' := run_command (show_properties which) s in
  viewable_properties_frames s' = 1
  /\ winfo_viewable (properties_frame which s') = true
  /\ _selected_camera_mode s' = _selected_camera_mode s
  /\ _mode_label s' = _mode_label s
  /\ _menubar s' = _menubar s.
Proof.
  destruct s as [ds vs eh gh ms cm si mb ml mu [p1|] [p2|] [p3|] d q];
    unfold viewable_properties_frames; simpl; intros H; try lia;
    destruct which; repeat split.
Qed.

Lemma show_properties_laid_out (which : PropertiesFrame) (s : UserInteface)
    (m : OperatingMode) :
  laid_out s m -> laid_out (run_command (show_properties which) s) m.
Proof.
  intros [Hm Hl Hb Hf].
  destruct (@show_properties_viewable which s Hf) as (F & _ & Em & El & Eb).
  split; try congruence. rewrite F; lia.
Qed.

Lemma source_menu_entry (entry : nat) (e : MenuEntry) :
  nth_error _source_menu entry = Some e ->
  exists name i,
    e = add_radiobutton name var_selected_source_index i
          (cmd_handler_set_source i).
Proof.
  intros H; apply nth_error_In in H; unfold _source_menu in H.
  apply in_map_iff in H; destruct H as ([name i] & <- & _).
  now exists name, i.
Qed.

Lemma config_menu_entry (entry : nat) (e : MenuEntry) :
  nth_error _config_menu entry = Some e ->
  e = add_separator
  \/ (exists l which, e = add_command l (show_properties which))
  \/ e = add_checkbutton "Guidlines hidden" var_guidelines_hidden
           cmd_change_guidelines_visibility
  \/ e = add_checkbutton "Mute alerts" var_mute_sounds
           cmd_handler_change_mute_sounds.
Proof.
  do 7 (destruct entry as [|entry]; simpl;
        [intros [= <-];
         first [ now left
               | right; left; eexists; exists image_properties; reflexivity
               | right; left; eexists; exists guidelines_properties;
                 reflexivity
               | right; left; eexists; exists detection_properties;
                 reflexivity
               | now right; right; left
               | now right; right; right ] |]).
  destruct entry; discriminate.
Qed.

Lemma invoke_mode_entry (s : UserInteface) (m0 : OperatingMode)
    (entry : nat) (e : MenuEntry) :
  laid_out s m0 ->
  nth_error _mode_menu entry = Some e ->
  exists m, entry = mode_entry m /\ laid_out (invoke e s) m.
Proof.
  intros L H.
  destruct entry as [|[|[|entry]]]; simpl in H;
    [exists ParkAssistant | exists RearviewMirror | exists Configuration
    | destruct entry; discriminate ];
    injection H as <-; (split; [reflexivity |]).
  - apply (@enter_mode_laid_out s m0 ParkAssistant L).
  - apply (@enter_mode_laid_out s m0 RearviewMirror L).
  - apply (@enter_mode_laid_out s m0 Configuration L).
Qed.

Lemma invoke_source_entry (s : UserInteface) (m0 : OperatingMode)
    (entry : nat) (e : MenuEntry) :
  laid_out s m0 ->
  nth_error _source_menu entry = Some e ->
  laid_out (invoke e s) m0.
Proof.
  intros L H; apply source_menu_entry in H; destruct H as (name & i & ->).
  eapply laid_out_ext; [| exact L]; reflexivity.
Qed.

Lemma invoke_config_entry (s : UserInteface) (m0 : OperatingMode)
    (entry : nat) (e : MenuEntry) :
  laid_out s m0 ->
  nth_error _config_menu entry = Some e ->
  laid_out (invoke e s) m0.
Proof.
  intros L H; apply config_menu_entry in H.
  destruct H as [-> | [(l & which & ->) | [-> | ->]]].
  - exact L.
  - now apply show_properties_laid_out.
  - eapply laid_out_ext; [| exact L]; reflexivity.
  - eapply laid_out_ext; [| exact L]; reflexivity.
Qed.

Lemma handle_laid_out (ev : Event) (s : UserInteface) (m0 : OperatingMode) :
  laid_out s m0 -> exists m, laid_out (handle ev s) m.
Proof.
  intros L; destruct ev as [menu entry| | |]; simpl.
  - rewrite (lo_menubar L).
    destruct menu as [|[|[|[|menu]]]].
    + destruct m0; simpl; eauto.
    + replace (nth_error (menubar_of m0) 1)
        with (Some (add_cascade "Mode" _mode_menu)) by (now destruct m0).
      destruct (nth_error _mode_menu entry) as [e|] eqn:E; eauto.
      destruct (@invoke_mode_entry s m0 entry e L E) as (m & _ & Lm); eauto.
    + replace (nth_error (menubar_of m0) 2)
        with (Some (add_cascade "Source" _source_menu)) by (now destruct m0).
      destruct (nth_error _source_menu entry) as [e|] eqn:E; eauto.
      exists m0; now apply (@invoke_source_entry s m0 entry e L E).
    + destruct m0; simpl; eauto.
      destruct (nth_error _config_menu entry) as [e|] eqn:E; eauto.
      exists Configuration; now apply (@invoke_config_entry s Configuration entry e L E).
    + replace (nth_error (menubar_of m0) (S (S (S (S menu))))) with
        (@None MenubarEntry); eauto.
      destruct m0; simpl; destruct menu; reflexivity.
  - destruct (after_queue s) as [|t pending]; eauto.
    exists m0; eapply laid_out_ext; [| exact L].
    now rewrite updateVideoFrame_layout_fields.
  - exists m0; eapply laid_out_ext; [| exact L].
    unfold mute; split_ifs; reflexivity.
  - exists m0; eapply laid_out_ext; [| exact L]; reflexivity.
Qed.

Lemma mainloop_laid_out (events : list Event) (s : UserInteface)
    (m0 : OperatingMode) :
  laid_out s m0 -> exists m, laid_out (mainloop events s) m.
Proof.
  revert s m0; induction events as [|ev events IH]; intros s m0 L; simpl;
    eauto.
  destruct (@handle_laid_out ev s m0 L) as (m & Lm); eauto.
Qed.

Lemma running_laid_out (display_size : nat * nat) (video_source : Engine)
    (events : list Event) :
  exists m, laid_out (mainloop events (started display_size video_source)) m.
Proof. eapply mainloop_laid_out, started_laid_out. Qed.

Lemma switch_mode_unfold (s : UserInteface) (m0 m : OperatingMode) :
  laid_out s m0 ->
  handle (switch_mode m) s
  = run_command (mode_command m)
      (with_selected_camera_mode (mode_value m) s).
Proof.
  intros L; unfold switch_mode, MODE_MENU, handle; rewrite (lo_menubar L).
  replace (nth_error (menubar_of m0) 1)
    with (Some (add_cascade "Mode" _mode_menu)) by (now destruct m0).
  now rewrite mode_menu_entry.
Qed.

Lemma switch_mode_laid_out (s : UserInteface) (m0 m : OperatingMode) :
  laid_out s m0 ->
  laid_out (handle (switch_mode m) s) m
  /\ viewable_properties_frames (handle (switch_mode m) s) = 0.
Proof.
  intros L; rewrite (switch_mode_unfold m L).
  apply (@enter_mode_laid_out s m0 m L).
Qed.

(** *** The state after construction *)

(** C5.  Once [__init__] has run, and still after [show] has put up the first
    frame, the mode in effect is the rear-view mirror: the selection variable
    holds 1, the value of the 'Rearview mirror' radio button, the mode label
    reads 'REARVIEW MIRROR', and the menu bar has no 'Configuration' menu. *)
Theorem init_mode_is_rearview_mirror (display_size : nat * nat)
    (video_source : Engine) :
  let s := __init__ display_size video_source in
  mode_active s RearviewMirror
  /\ mode_active (started display_size video_source) RearviewMirror
  /\ _selected_camera_mode s = 1%Z
  /\ nth_error _mode_menu (mode_entry RearviewMirror)
     = Some (add_radiobutton "Rearview mirror" var_selected_camera_mode 1%Z
               cmd_enter_mirror_mode)
  /\ _mode_label s = "REARVIEW MIRROR"%string
  /\ _menubar s
     = [tearoff; add_cascade "Mode" _mode_menu;
        add_cascade "Source" _source_menu].
Proof.
  cbv zeta.
  split; [apply laid_out_active, init_laid_out |].
  split; [apply laid_out_active, started_laid_out |].
  repeat split.
Qed.

(** C10.  Once [__init__] has run, the source selection variable holds -2,
    the file-source identifier and not the no-source one, and nothing was
    called on the event handler: [_init_source_menu] sets the variable without
    running any radio button's command, so no [set_source] call is made. *)
Theorem init_source_selection (display_size : nat * nat)
    (video_source : Engine) :
  let s := __init__ display_size video_source in
  _selected_source_index s = (-2)%Z
  /\ _selected_source_index s = FILE_SOURCE
  /\ _selected_source_index s <> NO_SOURCE
  /\ _event_handler s = []
  /\ (forall i, ~ In (set_source i) (_event_handler s))
  /\ (forall s0 : UserInteface,
        _event_handler (_init_source_menu s0) = _event_handler s0
        /\ _video_source (_init_source_menu s0) = _video_source s0
        /\ _selected_source_index (_init_source_menu s0) = (-2)%Z).
Proof.
  cbv zeta; split; [reflexivity |].
  split; [reflexivity |].
  split; [discriminate |].
  split; [reflexivity |].
  split; [intros i [] |].
  intros s0; repeat split.
Qed.

(** *** Modes *)

(** C6.  At every point of a run (the interface built and shown, then any
    events) exactly one of the three modes is in effect, and whatever that
    mode is, one mode-switch request for any mode [m] puts [m] in effect. *)
Theorem one_mode_active_and_switch_total (display_size : nat * nat)
    (video_source : Engine) (events : list Event) :
  let s := mainloop events (started display_size video_source) in
  (exists m, mode_active s m /\ forall m', mode_active s m' -> m' = m)
  /\ (forall m, mode_active (handle (switch_mode m) s) m).
Proof.
  cbv zeta.
  destruct (running_laid_out display_size video_source events) as (m0 & L).
  split.
  - exists m0; split; [now apply laid_out_active |].
    intros m' (Hm' & _); apply mode_value_inj.
    now rewrite <- Hm', (lo_mode L).
  - intros m; apply laid_out_active.
    apply (@switch_mode_laid_out _ m0 m L).
Qed.

(** *** Properties frames *)

(** C8.  At every point of a run at most one of the three properties frames
    is on screen.  Each [_show_..._properties] first hides whatever frame is
    on screen ([_hide_properties_frame] leaves none) and then places its own,
    which is then the only one; and every mode switch leaves none. *)
Theorem at_most_one_properties_frame (display_size : nat * nat)
    (video_source : Engine) (events : list Event) :
  let s := mainloop events (started display_size video_source) in
  viewable_properties_frames s <= 1
  /\ viewable_properties_frames (_hide_properties_frame s) = 0
  /\ _show_image_properties s
     = with_image_properties_frame (Some (10, 40)%Z)
         (_hide_properties_frame s)
  /\ _show_guidelines_properties s
     = with_guidelines_properties_frame (Some (10, 40)%Z)
         (_hide_properties_frame s)
  /\ _show_detection_properties s
     = with_detection_properties_frame (Some (10, 40)%Z)
         (_hide_properties_frame s)
  /\ (forall which,
        let s' := run_command (show_properties which) s in
        viewable_properties_frames s' = 1
        /\ winfo_viewable (properties_frame which s') = true)
  /\ (forall m, viewable_properties_frames (handle (switch_mode m) s) = 0).
Proof.
  cbv zeta.
  destruct (running_laid_out display_size video_source events) as (m0 & L).
  split; [exact (lo_frames L) |].
  split; [apply hide_viewable, (lo_frames L) |].
  do 3 (split; [reflexivity |]).
  split.
  - intros which.
    destruct (@show_properties_viewable which _ (lo_frames L))
      as (F & V & _); now split.
  - intros m; apply (@switch_mode_laid_out _ m0 m L).
Qed.

(** *** Guidelines *)

(** C9.  [change_guidelines_visibility] makes one call on the event handler,
    [set_guidelines_visibility], and its argument is the hidden flag as it
    stands, not its negation.  Picking 'Guidlines hidden' in the
    Configuration menu flips the flag and then makes that call: the handler
    gets [true] exactly when the box is now checked. *)
Theorem guidelines_hidden_flag_forwarded :
  (forall s : UserInteface,
      _event_handler (change_guidelines_visibility s)
      = _event_handler s ++ [set_guidelines_visibility (_guidelines_hidden s)]
      /\ _guidelines_hidden (change_guidelines_visibility s)
         = _guidelines_hidden s)
  /\ (forall (display_size : nat * nat) (video_source : Engine)
        (events : list Event),
      let s := handle (switch_mode Configuration)
                 (mainloop events (started display_size video_source)) in
      let s' := handle (choose CONFIGURATION_MENU 2) s in
      nth_error _config_menu 2
      = Some (add_checkbutton "Guidlines hidden" var_guidelines_hidden
                cmd_change_guidelines_visibility)
      /\ _guidelines_hidden s' = negb (_guidelines_hidden s)
      /\ _event_handler s'
         = _event_handler s
             ++ [set_guidelines_visibility (_guidelines_hidden s')]).
Proof.
  split; [intros s; split; reflexivity |].
  intros display_size video_source events; cbv zeta.
  destruct (running_laid_out display_size video_source events) as (m0 & L).
  destruct (@switch_mode_laid_out _ m0 Configuration L) as (L' & _).
  split; [reflexivity |].
  remember (handle (switch_mode Configuration)
              (mainloop events (started display_size video_source))) as s.
  unfold CONFIGURATION_MENU, handle.
  rewrite (lo_menubar L'); simpl; split; reflexivity.
Qed.

(** *** The frame update *)

Lemma shown_frame_ext (s s' : UserInteface) (video_frame : option MatLike) :
  _display_size s' = _display_size s ->
  shown_frame s' video_frame = shown_frame s video_frame.
Proof.
  intros E; unfold shown_frame, frame_refused, _generate_placeholder_image.
  now rewrite E.
Qed.

Lemma fromarray_returned (f g : MatLike) :
  fromarray f = returned g -> g = f.
Proof.
  unfold fromarray; destruct (_fromarray_typemap f); congruence.
Qed.

Lemma placeholder_returned (s : UserInteface) (p : MatLike) :
  _generate_placeholder_image s = returned p ->
  shape p = [fst (_display_size s); snd (_display_size s)]
  /\ dtype p = uint8.
Proof.
  unfold _generate_placeholder_image, putText.
  destruct (empty (np_full (_display_size s) x00)); [discriminate |].
  intros [= <-]; split; reflexivity.
Qed.

Lemma placeholder_positive (s : UserInteface) :
  0 < fst (_display_size s) -> 0 < snd (_display_size s) ->
  exists p, _generate_placeholder_image s = returned p
            /\ fromarray p = returned p.
Proof.
  intros Hh Hw; unfold _generate_placeholder_image, putText, empty; simpl.
  destruct (fst (_display_size s)); [lia |].
  destruct (snd (_display_size s)); [lia |].
  simpl; eexists; split; reflexivity.
Qed.

(** Whatever is made into the label's image has the display's height and
    width as its first two axes. *)
Lemma shown_frame_fits (s : UserInteface) (video_frame : option MatLike)
    (g : MatLike) :
  shown_frame s video_frame = returned g ->
  nth_error (shape g) 0 = Some (fst (_display_size s))
  /\ nth_error (shape g) 1 = Some (snd (_display_size s)).
Proof.
  assert (P : forall p, bind (_generate_placeholder_image s) fromarray
                        = returned p ->
              nth_error (shape p) 0 = Some (fst (_display_size s))
              /\ nth_error (shape p) 1 = Some (snd (_display_size s))).
  { intros p H.
    destruct (_generate_placeholder_image s) as [q|x] eqn:Q;
      [| discriminate].
    simpl in H; apply fromarray_returned in H; subst p.
    apply placeholder_returned in Q; destruct Q as [-> _]; now split. }
  unfold shown_frame, frame_refused.
  destruct video_frame as [f|]; [| exact (P g)].
  destruct (nth_error (shape f) 0) as [h|] eqn:E0; [| discriminate].
  destruct (Nat.eqb_spec h (fst (_display_size s))) as [->|N];
    [| exact (P g)].
  destruct (nth_error (shape f) 1) as [w|] eqn:E1; [| discriminate].
  destruct (Nat.eqb_spec w (snd (_display_size s))) as [->|N];
    [| exact (P g)].
  simpl; intros H; apply fromarray_returned in H; subst g; now split.
Qed.

(** The three ways [_updateVideoFrame] can go. *)
Lemma updateVideoFrame_cases (video_frame : option MatLike)
    (s : UserInteface) :
  match shown_frame s video_frame,
        process_next_frame (_video_source s) with
  | returned g, (returned next, e) =>
      _updateVideoFrame video_frame s
      = (None,
         after 20 next (with_video_source e (with_display (Some g) s)))
  | returned g, (raised x, e) =>
      _updateVideoFrame video_frame s
      = (Some x, with_video_source e (with_display (Some g) s))
  | raised x, _ => _updateVideoFrame video_frame s = (Some x, s)
  end.
Proof.
  unfold _updateVideoFrame.
  destruct (shown_frame s video_frame) as [g|x]; simpl;
    destruct (process_next_frame (_video_source s)) as [[next|y] e];
    reflexivity.
Qed.

Lemma updateVideoFrame_label (video_frame : option MatLike)
    (s : UserInteface) :
  _display (snd (_updateVideoFrame video_frame s))
  = match shown_frame s video_frame with
    | returned g => Some g
    | raised _ => _display s
    end.
Proof.
  pose proof (updateVideoFrame_cases video_frame s) as H.
  destruct (shown_frame s video_frame) as [g|x];
    [destruct (process_next_frame (_video_source s)) as [[next|y] e] |];
    now rewrite H.
Qed.

Definition display_fits (s : UserInteface) : Prop :=
  forall f, _display s = Some f ->
            nth_error (shape f) 0 = Some (fst (_display_size s))
            /\ nth_error (shape f) 1 = Some (snd (_display_size s)).

Lemma updateVideoFrame_display_fits (video_frame : option MatLike)
    (s : UserInteface) :
  display_fits s -> display_fits (snd (_updateVideoFrame video_frame s)).
Proof.
  intros F f; rewrite updateVideoFrame_label, updateVideoFrame_display_size.
  destruct (shown_frame s video_frame) as [g|x] eqn:E; [| apply F].
  intros [= <-]; now apply (shown_frame_fits s video_frame).
Qed.

Lemma handle_display_fits (ev : Event) (s : UserInteface) :
  display_fits s -> display_fits (handle ev s).
Proof.
  intros F; destruct (is_timer ev) eqn:E.
  - destruct ev; try discriminate; simpl.
    destruct (after_queue s) as [|t pending]; [exact F |].
    apply updateVideoFrame_display_fits.
    intros f; apply F.
  - intros f; rewrite handle_display_size, handle_display by exact E.
    apply F.
Qed.

Lemma handle_display_kept (ev : Event) (s : UserInteface) :
  _display s <> None -> _display (handle ev s) <> None.
Proof.
  intros N; destruct (is_timer ev) eqn:E.
  - destruct ev; try discriminate; simpl.
    destruct (after_queue s) as [|t pending]; [exact N |].
    rewrite updateVideoFrame_label.
    destruct (shown_frame _ _); [discriminate | exact N].
  - now rewrite handle_display.
Qed.

Lemma show_cases (s : UserInteface) :
  match process_next_frame (_video_source s) with
  | (returned first, e) =>
      show s = _updateVideoFrame first (with_video_source e s)
  | (raised x, e) => show s = (Some x, with_video_source e s)
  end.
Proof.
  unfold show; destruct (process_next_frame (_video_source s)) as [[f|x] e];
    reflexivity.
Qed.

Lemma show_display_fits (s : UserInteface) :
  display_fits s -> display_fits (snd (show s)).
Proof.
  intros F; pose proof (show_cases s) as H.
  destruct (process_next_frame (_video_source s)) as [[first|x] e];
    rewrite H; [apply updateVideoFrame_display_fits |]; exact F.
Qed.

Lemma show_returned_display (s : UserInteface) :
  fst (show s) = None -> _display (snd (show s)) <> None.
Proof.
  pose proof (show_cases s) as H.
  destruct (process_next_frame (_video_source s)) as [[first|x] e];
    rewrite H; [| discriminate].
  pose proof (updateVideoFrame_cases first (with_video_source e s)) as C.
  destruct (shown_frame (with_video_source e s) first) as [g|y];
    [destruct (process_next_frame
                 (_video_source (with_video_source e s))) as [[next|y] e'] |];
    rewrite C; simpl; discriminate.
Qed.

Lemma mainloop_snoc (events : list Event) (ev : Event) (s : UserInteface) :
  mainloop (events ++ [ev]) s = handle ev (mainloop events s).
Proof. unfold mainloop; now rewrite fold_left_app. Qed.

(** A frame update that leaves a callback pending has gone all the way. *)
Lemma updateVideoFrame_scheduled (video_frame : option MatLike)
    (s : UserInteface) :
  after_queue s = [] ->
  after_queue (snd (_updateVideoFrame video_frame s)) <> [] ->
  exists g next,
    shown_frame s video_frame = returned g
    /\ fst (process_next_frame (_video_source s)) = returned next
    /\ _updateVideoFrame video_frame s
       = (None,
          after 20 next
            (with_video_source (snd (process_next_frame (_video_source s)))
               (with_display (Some g) s))).
Proof.
  intros Q N; pose proof (updateVideoFrame_cases video_frame s) as C.
  destruct (shown_frame s video_frame) as [g|x];
    [destruct (process_next_frame (_video_source s)) as [[next|y] e] |];
    rewrite C in N |- *; simpl in N; try (now rewrite Q in N).
  now exists g, next.
Qed.

Lemma shown_frame_refused (s : UserInteface) (video_frame : option MatLike) :
  0 < fst (_display_size s) -> 0 < snd (_display_size s) ->
  frame_refused s video_frame = returned true ->
  exists p, _generate_placeholder_image s = returned p
            /\ shown_frame s video_frame = returned p
            /\ shape p = [fst (_display_size s); snd (_display_size s)]
            /\ dtype p = uint8.
Proof.
  intros Hh Hw R.
  destruct (placeholder_positive s Hh Hw) as (p & P & C).
  exists p; split; [exact P |]; split.
  - unfold shown_frame; rewrite R; simpl.
    destruct video_frame; now rewrite P.
  - now apply placeholder_returned.
Qed.

Lemma shown_frame_accepted (s : UserInteface) (f : MatLike) :
  frame_refused s (Some f) = returned false ->
  shown_frame s (Some f) = fromarray f.
Proof. intros R; unfold shown_frame; now rewrite R. Qed.

Lemma frame_refused_cases (s : UserInteface) (f : MatLike) :
  match nth_error (shape f) 0, nth_error (shape f) 1 with
  | None, _ => frame_refused s (Some f) = raised IndexError
  | Some h, None =>
      frame_refused s (Some f)
      = if h =? fst (_display_size s) then raised IndexError
        else returned true
  | Some h, Some w =>
      frame_refused s (Some f)
      = returned (negb (h =? fst (_display_size s))
                  || negb (w =? snd (_display_size s)))
  end.
Proof.
  unfold frame_refused.
  destruct (nth_error (shape f) 0) as [h|];
    [| now destruct (nth_error (shape f) 1)].
  destruct (nth_error (shape f) 1) as [w|];
    destruct (h =? fst (_display_size s)); reflexivity.
Qed.

(** C1, as the code has it.  On a display of positive height and width,
    whatever frame value reaches [_updateVideoFrame]: when it is [None], or
    its height or its width is not the display's, the video label gets the
    generated placeholder, whose height and width are the display's.  A
    frame of the display's height and width goes on the label as it is when
    [Image.fromarray] has a mode for it; when it has none, the call raises
    [TypeError] and leaves everything as it was.  An array without the axis
    the test asks for raises [IndexError], likewise. *)
Theorem updateVideoFrame_display (s : UserInteface)
    (video_frame : option MatLike) :
  0 < fst (_display_size s) -> 0 < snd (_display_size s) ->
  let s' := snd (_updateVideoFrame video_frame s) in
  ((video_frame = None
    \/ exists f, video_frame = Some f
         /\ ((exists h, nth_error (shape f) 0 = Some h
                        /\ h <> fst (_display_size s))
             \/ (nth_error (shape f) 0 = Some (fst (_display_size s))
                 /\ exists w, nth_error (shape f) 1 = Some w
                              /\ w <> snd (_display_size s))))
   -> exists p, _generate_placeholder_image s = returned p
                /\ _display s' = Some p
                /\ shape p = [fst (_display_size s); snd (_display_size s)])
  /\ (forall f, video_frame = Some f ->
        nth_error (shape f) 0 = Some (fst (_display_size s)) ->
        nth_error (shape f) 1 = Some (snd (_display_size s)) ->
        match _fromarray_typemap f with
        | Some _ => _display s' = Some f
        | None => _updateVideoFrame video_frame s = (Some TypeError, s)
        end)
  /\ (forall f, video_frame = Some f ->
        nth_error (shape f) 0 = None
        \/ (nth_error (shape f) 0 = Some (fst (_display_size s))
            /\ nth_error (shape f) 1 = None) ->
        _updateVideoFrame video_frame s = (Some IndexError, s)).
Proof.
  intros Hh Hw; cbv zeta; split; [| split].
  - intros H.
    assert (R : frame_refused s video_frame = returned true).
    { destruct H as [-> | (f & -> & H)]; [reflexivity |].
      pose proof (frame_refused_cases s f) as C.
      destruct H as [(h & E0 & N) | (E0 & w & E1 & N)]; rewrite E0 in C.
      - apply Nat.eqb_neq in N.
        destruct (nth_error (shape f) 1); rewrite C, N; reflexivity.
      - rewrite E1 in C; apply Nat.eqb_neq in N.
        now rewrite C, N, Nat.eqb_refl. }
    destruct (shown_frame_refused s video_frame Hh Hw R)
      as (p & P & S & Sh & _).
    exists p; split; [exact P |]; split; [| exact Sh].
    now rewrite updateVideoFrame_label, S.
  - intros f -> E0 E1.
    assert (R : frame_refused s (Some f) = returned false).
    { pose proof (frame_refused_cases s f) as C.
      now rewrite E0, E1, !Nat.eqb_refl in C. }
    pose proof (updateVideoFrame_cases (Some f) s) as C.
    rewrite updateVideoFrame_label, (shown_frame_accepted s f R) in *.
    unfold fromarray in *.
    destruct (_fromarray_typemap f); [reflexivity | exact C].
  - intros f -> H.
    assert (R : frame_refused s (Some f) = raised IndexError).
    { pose proof (frame_refused_cases s f) as C.
      destruct H as [E0 | [E0 E1]]; rewrite E0 in C; [exact C |].
      now rewrite E1, Nat.eqb_refl in C. }
    pose proof (updateVideoFrame_cases (Some f) s) as C.
    unfold shown_frame in C; rewrite R in C; exact C.
Qed.

(** The arrays [Image.fromarray] has a mode for: 8-bit with no channel axis
    or with two, three or four channels, and arrays without a channel axis
    of the other element types of its table. *)
Definition fromarray_handles (f : MatLike) : bool :=
  match skipn 2 (shape f) with
  | [] =>
      match dtype f with
      | uint64 | int64 | float16 => false
      | _ => true
      end
  | [c] =>
      match dtype f with
      | uint8 => (2 <=? c) && (c <=? 4)
      | _ => false
      end
  | _ => false
  end.

Lemma fromarray_handles_spec (f : MatLike) :
  fromarray_handles f = true <-> _fromarray_typemap f <> None.
Proof.
  unfold fromarray_handles, _fromarray_typemap.
  destruct (skipn 2 (shape f)) as [|c [|c' rest]].
  - destruct (dtype f); split; congruence.
  - destruct c as [|[|[|[|[|c]]]]]; destruct (dtype f); simpl; split;
      congruence.
  - destruct c as [|[|[|[|[|c]]]]]; destruct (dtype f); simpl; split;
      congruence.
Qed.


(** *** The tick cadence *)

Lemma updateVideoFrame_after_queue (video_frame : option MatLike)
    (s : UserInteface) :
  after_queue (snd (_updateVideoFrame video_frame s))
  = match fst (_updateVideoFrame video_frame s),
          fst (process_next_frame (_video_source s)) with
    | None, returned next => after_queue s ++ [mkTimer 20 next]
    | _, _ => after_queue s
    end.
Proof.
  pose proof (updateVideoFrame_cases video_frame s) as C.
  destruct (shown_frame s video_frame) as [g|x];
    [destruct (process_next_frame (_video_source s)) as [[next|y] e] |];
    rewrite C; simpl; trivial.
Qed.

Lemma updateVideoFrame_returns (video_frame : option MatLike)
    (s : UserInteface) :
  fst (_updateVideoFrame video_frame s) = None <->
  (exists g, shown_frame s video_frame = returned g)
  /\ (exists next, fst (process_next_frame (_video_source s))
                   = returned next).
Proof.
  pose proof (updateVideoFrame_cases video_frame s) as C.
  destruct (shown_frame s video_frame) as [g|x];
    [destruct (process_next_frame (_video_source s)) as [[next|y] e] |];
    rewrite C; simpl; split;
    try discriminate;
    try (intros [(g' & G) (n' & N)]; discriminate);
    try (intros _; reflexivity).
  intros _; split; eexists; reflexivity.
Qed.

Lemma handle_one_timer_at_most (ev : Event) (s : UserInteface) :
  List.length (after_queue s) <= 1 ->
  List.length (after_queue (handle ev s)) <= 1.
Proof.
  intros L; destruct (is_timer ev) eqn:E;
    [| now rewrite handle_after_queue].
  destruct ev; try discriminate; simpl.
  destruct (after_queue s) as [|t [|t' pending]] eqn:Q; simpl in L;
    [rewrite Q; simpl; lia | | lia].
  rewrite updateVideoFrame_after_queue; simpl.
  destruct (fst (_updateVideoFrame _ _)); [simpl; lia |].
  destruct (fst (process_next_frame _)); simpl; lia.
Qed.

Lemma handle_stopped (ev : Event) (s : UserInteface) :
  after_queue s = [] -> after_queue (handle ev s) = [].
Proof.
  intros Q; destruct (is_timer ev) eqn:E;
    [| now rewrite handle_after_queue].
  destruct ev; try discriminate; simpl; now rewrite Q.
Qed.

Lemma show_after_queue (s : UserInteface) :
  after_queue s = [] -> List.length (after_queue (snd (show s))) <= 1.
Proof.
  intros Q; pose proof (show_cases s) as C.
  destruct (process_next_frame (_video_source s)) as [[first|x] e];
    rewrite C; [| simpl; rewrite Q; simpl; lia].
  rewrite updateVideoFrame_after_queue; simpl; rewrite Q.
  destruct (fst (_updateVideoFrame _ _)); [simpl; lia |].
  destruct (fst (process_next_frame _)); simpl; lia.
Qed.

(** C4, as the code has it.  A run of [_updateVideoFrame] that returns has
    taken one frame from [process_next_frame] and registered exactly one
    callback, due in 20 ms, which is the frame update itself on the frame
    just taken.  It returns when the image for the label can be made (on a
    display of positive size that is so for [None] and for a frame of the
    wrong size) and [process_next_frame] returns.  A run that raises
    registers nothing, and nothing else registers a callback: at any point
    of a run at most one callback is pending, and once none is pending none
    ever is again. *)
Theorem updateVideoFrame_schedules_next :
  (forall (video_frame : option MatLike) (s : UserInteface),
      let r := _updateVideoFrame video_frame s in
      (fst r = None ->
       exists next,
         fst (process_next_frame (_video_source s)) = returned next
         /\ after_queue (snd r) = after_queue s ++ [mkTimer 20 next]
         /\ _video_source (snd r)
            = snd (process_next_frame (_video_source s)))
      /\ (fst r <> None -> after_queue (snd r) = after_queue s)
      /\ (fst r = None <->
          (exists g, shown_frame s video_frame = returned g)
          /\ (exists next, fst (process_next_frame (_video_source s))
                           = returned next))
      /\ (0 < fst (_display_size s) -> 0 < snd (_display_size s) ->
          frame_refused s video_frame = returned true ->
          exists g, shown_frame s video_frame = returned g))
  /\ (forall (t : Timer) (pending : list Timer) (s : UserInteface),
        handle timer_fires (with_after_queue (t :: pending) s)
        = snd (_updateVideoFrame (frame t) (with_after_queue pending s)))
  /\ (forall (display_size : nat * nat) (video_source : Engine)
        (events : list Event),
        List.length
          (after_queue (mainloop events (started display_size video_source)))
        <= 1)
  /\ (forall (ev : Event) (s : UserInteface),
        after_queue s = [] -> after_queue (handle ev s) = []).
Proof.
  split; [| split; [| split]].
  - intros video_frame s; cbv zeta; split; [| split; [| split]].
    + intros R; pose proof (updateVideoFrame_cases video_frame s) as C.
      destruct (shown_frame s video_frame) as [g|x];
        [destruct (process_next_frame (_video_source s)) as [[next|y] e] |];
        rewrite C in R |- *; try discriminate.
      exists next; repeat split.
    + intros R; rewrite updateVideoFrame_after_queue.
      destruct (fst (_updateVideoFrame video_frame s)); [| contradiction].
      reflexivity.
    + apply updateVideoFrame_returns.
    + intros Hh Hw R.
      destruct (shown_frame_refused s video_frame Hh Hw R)
        as (p & _ & S & _); now exists p.
  - reflexivity.
  - intros display_size video_source events.
    assert (G : forall evs s, List.length (after_queue s) <= 1 ->
                  List.length (after_queue (mainloop evs s)) <= 1).
    { induction evs as [|ev evs IH]; intros s L; simpl; trivial.
      apply IH, handle_one_timer_at_most, L. }
    apply G; unfold started; now apply show_after_queue.
  - exact handle_stopped.
Qed.

(** *** When a change reaches the screen *)

Lemma invoke_calls (e : MenuEntry) (s : UserInteface) :
  exists calls,
    _event_handler (invoke e s) = _event_handler s ++ calls
    /\ _video_source (invoke e s)
       = fold_left (fun engine c => application c engine) calls
           (_video_source s).
Proof.
  destruct e as [l c| |l v c|l v z c]; try destruct c; try destruct v;
    unfold_methods; simpl; split_ifs; simpl;
    first [ exists []; split; [symmetry; apply app_nil_r | reflexivity]
          | eexists [_]; split; reflexivity ].
Qed.

Lemma handle_calls (ev : Event) (s : UserInteface) :
  is_timer ev = false ->
  exists calls,
    _event_handler (handle ev s) = _event_handler s ++ calls
    /\ _video_source (handle ev s)
       = fold_left (fun engine c => application c engine) calls
           (_video_source s).
Proof.
  assert (Z : exists calls,
             _event_handler s = _event_handler s ++ calls
             /\ _video_source s
                = fold_left (fun engine c => application c engine) calls
                    (_video_source s))
    by (exists []; split; [symmetry; apply app_nil_r | reflexivity]).
  destruct ev as [menu entry| | |]; simpl; try discriminate; intros _.
  - destruct (nth_error (_menubar s) menu) as [[|l entries]|]; trivial.
    destruct (nth_error entries entry); trivial. apply invoke_calls.
  - unfold mute; split_ifs; exact Z.
  - eexists [_]; split; reflexivity.
Qed.

Lemma mainloop_calls (changes : list Event) (s : UserInteface) :
  forallb (fun ev => negb (is_timer ev)) changes = true ->
  exists calls,
    _event_handler (mainloop changes s) = _event_handler s ++ calls
    /\ _video_source (mainloop changes s)
       = fold_left (fun engine c => application c engine) calls
           (_video_source s).
Proof.
  revert s; induction changes as [|ev changes IH]; intros s; simpl.
  - intros _; exists []; split; [symmetry; apply app_nil_r | reflexivity].
  - rewrite andb_true_iff, negb_true_iff; intros [Hev Hch].
    destruct (handle_calls ev s Hev) as (c1 & L1 & E1).
    destruct (IH (handle ev s) Hch) as (c2 & L2 & E2).
    exists (c1 ++ c2); split.
    + change (_event_handler (mainloop changes (handle ev s))
              = _event_handler s ++ c1 ++ c2).
      now rewrite L2, L1, app_assoc.
    + change (_video_source (mainloop changes (handle ev s))
              = fold_left (fun engine c => application c engine) (c1 ++ c2)
                  (_video_source s)).
      now rewrite E2, E1, fold_left_app.
Qed.

(** ** Further properties of the class *)

(** *** Definitions they are stated with *)

(** The state a mode switch leaves: selection variable, label and menu bar
    are those of [m], no properties frame is placed, the rest is as before. *)
Definition switched (m : OperatingMode) (s : UserInteface) : UserInteface :=
  mkUI (_display_size s) (_video_source s) (_event_handler s)
    (_guidelines_hidden s) (_mute_sounds s) (mode_value m)
    (_selected_source_index s) (menubar_of m) (mode_text m) (_mute_label s)
    None None None (_display s) (after_queue s).

(** The state [_show_..._properties] leaves when at most one frame was on
    screen: only the frame asked for is placed. *)
Definition opened (which : PropertiesFrame) (s : UserInteface)
    : UserInteface :=
  let at_ (w : PropertiesFrame) : Placement :=
    match which, w with
    | image_properties, image_properties
    | guidelines_properties, guidelines_properties
    | detection_properties, detection_properties => Some (10, 40)%Z
    | _, _ => None
    end in
  with_image_properties_frame (at_ image_properties)
    (with_guidelines_properties_frame (at_ guidelines_properties)
       (with_detection_properties_frame (at_ detection_properties) s)).

(** The engine after [k] calls of [process_next_frame], and what call number
    [k] (from 0) gives. *)
Fixpoint engine_after (k : nat) (e : Engine) : Engine :=
  match k with
  | 0 => e
  | S k => snd (process_next_frame (engine_after k e))
  end.

Definition produced (k : nat) (e : Engine) : Outcome (option MatLike) :=
  fst (process_next_frame (engine_after k e)).

(** Everything of the interface but the video label, the engine and the
    pending callbacks. *)
Definition controls (s : UserInteface) :=
  (_display_size s, _event_handler s, _guidelines_hidden s, _mute_sounds s,
   (_selected_camera_mode s, _selected_source_index s, _menubar s,
    _mode_label s),
   (_mute_label s, _image_properties_frame s, _guidelines_properties_frame s,
    _detection_properties_frame s)).

Definition configuration_cascades (s : UserInteface) : nat :=
  List.length (filter is_configuration_cascade (_menubar s)).

(** Position of the 'Source' cascade in the menu bar. *)
Definition SOURCE_MENU : nat := 2.

(** *** Shared lemmas *)

Lemma switch_mode_switched (s : UserInteface) (m0 m : OperatingMode) :
  laid_out s m0 -> handle (switch_mode m) s = switched m s.
Proof.
  intros L; rewrite (switch_mode_unfold m L).
  destruct L as [_ _ Hb Hf].
  destruct s as [ds vs eh gh ms cm si mb ml mu [p1|] [p2|] [p3|] d q];
    unfold viewable_properties_frames in Hf; simpl in Hb, Hf; try lia;
    subst mb; destruct m0, m; reflexivity.
Qed.

Lemma switched_laid_out (s : UserInteface) (m : OperatingMode) :
  laid_out (switched m s) m.
Proof. split; try reflexivity. change (0 <= 1); lia. Qed.

Lemma viewable_of_layout_fields (s s' : UserInteface) :
  layout_fields s' = layout_fields s ->
  viewable_properties_frames s' = viewable_properties_frames s.
Proof.
  unfold layout_fields; intros E; injection E as _ _ _ E4 E5 E6.
  unfold viewable_properties_frames; now rewrite E4, E5, E6.
Qed.

(** Besides the layout of its mode, a state keeps its properties frames for
    the Configuration mode. *)
Definition settled (s : UserInteface) (m : OperatingMode) : Prop :=
  laid_out s m /\ (m = Configuration \/ viewable_properties_frames s = 0).

Lemma settled_ext (s s' : UserInteface) (m : OperatingMode) :
  layout_fields s' = layout_fields s -> settled s m -> settled s' m.
Proof.
  intros E [L F]; split; [now apply (laid_out_ext E) |].
  now rewrite (viewable_of_layout_fields E).
Qed.

Lemma handle_settled (ev : Event) (s : UserInteface) (m0 : OperatingMode) :
  settled s m0 -> exists m, settled (handle ev s) m.
Proof.
  intros [L F]; destruct ev as [menu entry| | |].
  - unfold handle; rewrite (lo_menubar L).
    destruct menu as [|[|[|[|menu]]]].
    + exists m0; destruct m0; simpl; now split.
    + replace (nth_error (menubar_of m0) 1)
        with (Some (add_cascade "Mode" _mode_menu)) by (now destruct m0).
      destruct (nth_error _mode_menu entry) as [e|] eqn:E;
        [| exists m0; now split].
      destruct (@invoke_mode_entry s m0 entry e L E) as (m & -> & _).
      rewrite mode_menu_entry in E; injection E as <-.
      exists m; split;
        [apply (@enter_mode_laid_out s m0 m L)
        | right; apply (@enter_mode_laid_out s m0 m L)].
    + replace (nth_error (menubar_of m0) 2)
        with (Some (add_cascade "Source" _source_menu)) by (now destruct m0).
      destruct (nth_error _source_menu entry) as [e|] eqn:E;
        [| exists m0; now split].
      apply source_menu_entry in E; destruct E as (name & i & ->).
      exists m0; apply (@settled_ext s); [reflexivity | now split].
    + destruct m0; simpl; try (eexists; split; [exact L | exact F]).
      destruct (nth_error _config_menu entry) as [e|] eqn:E;
        [| exists Configuration; now split].
      exists Configuration; split; [| now left].
      apply (@invoke_config_entry s Configuration entry e L E).
    + replace (nth_error (menubar_of m0) (S (S (S (S menu))))) with
        (@None MenubarEntry)
        by (destruct m0; simpl; destruct menu; reflexivity).
      exists m0; now split.
  - simpl; destruct (after_queue s) as [|t pending]; [exists m0; now split |].
    exists m0; apply (@settled_ext s); [| now split].
    now rewrite updateVideoFrame_layout_fields.
  - exists m0; apply (@settled_ext s); [| now split].
    simpl; unfold mute; split_ifs; reflexivity.
  - exists m0; apply (@settled_ext s); [reflexivity | now split].
Qed.

Lemma running_settled (display_size : nat * nat) (video_source : Engine)
    (events : list Event) :
  exists m, settled (mainloop events (started display_size video_source)) m.
Proof.
  assert (G : forall evs s m0, settled s m0 ->
                exists m, settled (mainloop evs s) m).
  { induction evs as [|ev evs IH]; intros s m0 S0; simpl; eauto.
    destruct (@handle_settled ev s m0 S0) as (m & Sm); eauto. }
  apply (G events _ RearviewMirror); split;
    [apply started_laid_out | right].
  unfold started.
  rewrite (viewable_of_layout_fields (show_layout_fields _)); reflexivity.
Qed.

(** *** Mode switches *)

(** X1.  A mode switch is between the user and the interface only: at any
    point of a run it makes no call on the event handler, leaves the engine
    as it is, and keeps the two check-box flags, the selected source, the
    'MUTED' label, the frame on display and the pending callback. *)
Theorem mode_switch_keeps_settings (display_size : nat * nat)
    (video_source : Engine) (events : list Event) (m : OperatingMode) :
  let s := mainloop events (started display_size video_source) in
  let s' := handle (switch_mode m) s in
  _event_handler s' = _event_handler s
  /\ _video_source s' = _video_source s
  /\ _guidelines_hidden s' = _guidelines_hidden s
  /\ _mute_sounds s' = _mute_sounds s
  /\ _selected_source_index s' = _selected_source_index s
  /\ _mute_label s' = _mute_label s
  /\ _display s' = _display s
  /\ after_queue s' = after_queue s.
Proof.
  cbv zeta.
  destruct (running_laid_out display_size video_source events) as (m0 & L).
  rewrite (switch_mode_switched m L); repeat split.
Qed.

(** X2.  Of two mode switches in a row only the second counts: the state is
    the one the second switch alone would have left.  In particular asking
    for the mode already in effect a second time changes nothing more. *)
Theorem last_mode_switch_wins (display_size : nat * nat)
    (video_source : Engine) (events : list Event) (m1 m2 : OperatingMode) :
  let s := mainloop events (started display_size video_source) in
  handle (switch_mode m2) (handle (switch_mode m1) s)
  = handle (switch_mode m2) s
  /\ handle (switch_mode m1) (handle (switch_mode m1) s)
     = handle (switch_mode m1) s.
Proof.
  cbv zeta.
  destruct (running_laid_out display_size video_source events) as (m0 & L).
  rewrite !(switch_mode_switched _ L).
  rewrite !(switch_mode_switched _ (switched_laid_out _ m1)).
  split; reflexivity.
Qed.

(** X3.  The menu bar never piles up Configuration menus: at any point of a
    run it holds the tear-off entry, 'Mode' and 'Source', and one
    'Configuration' cascade exactly when the selection variable holds 2,
    however often the Configuration mode was entered. *)
Theorem one_configuration_menu_at_most (display_size : nat * nat)
    (video_source : Engine) (events : list Event) :
  let s := mainloop events (started display_size video_source) in
  configuration_cascades s
  = (if (_selected_camera_mode s =? 2)%Z then 1 else 0)
  /\ List.length (_menubar s) = 3 + configuration_cascades s
  /\ firstn 3 (_menubar s)
     = [tearoff; add_cascade "Mode" _mode_menu;
        add_cascade "Source" _source_menu].
Proof.
  cbv zeta.
  destruct (running_laid_out display_size video_source events) as (m0 & L).
  unfold configuration_cascades.
  rewrite (lo_menubar L), (lo_mode L); destruct m0; repeat split.
Qed.

(** *** Properties frames *)

(** X4.  [_hide_properties_frame] takes at most one frame off the screen per
    call: the number of frames on screen goes down by one (and stays at
    zero).  The frame taken is the first on screen in the order guidelines,
    image, detection; the others stay where they are. *)
Theorem hide_takes_one_frame (s : UserInteface) :
  let s' := _hide_properties_frame s in
  viewable_properties_frames s' = viewable_properties_frames s - 1
  /\ (winfo_viewable (_guidelines_properties_frame s) = true ->
      _guidelines_properties_frame s' = None
      /\ _image_properties_frame s' = _image_properties_frame s
      /\ _detection_properties_frame s' = _detection_properties_frame s)
  /\ (winfo_viewable (_guidelines_properties_frame s) = false ->
      winfo_viewable (_image_properties_frame s) = true ->
      _image_properties_frame s' = None
      /\ _detection_properties_frame s' = _detection_properties_frame s)
  /\ (viewable_properties_frames s = 0 -> s' = s).
Proof.
  destruct s as [ds vs eh gh ms cm si mb ml mu [p1|] [p2|] [p3|] d q];
    unfold viewable_properties_frames, _hide_properties_frame; simpl;
    repeat split; try discriminate.
Qed.

(** X5.  At any point of a run a properties frame is on screen only in the
    Configuration mode: either the selection variable holds 2 or none of the
    three frames is placed. *)
Theorem properties_frames_only_in_configuration (display_size : nat * nat)
    (video_source : Engine) (events : list Event) :
  let s := mainloop events (started display_size video_source) in
  _selected_camera_mode s = 2%Z \/ viewable_properties_frames s = 0.
Proof.
  cbv zeta.
  destruct (running_settled display_size video_source events)
    as (m & L & [-> | F]); [left; exact (lo_mode L) | now right].
Qed.

Lemma show_properties_opened (which : PropertiesFrame) (s : UserInteface) :
  viewable_properties_frames s <= 1 ->
  run_command (show_properties which) s = opened which s.
Proof.
  destruct s as [ds vs eh gh ms cm si mb ml mu [p1|] [p2|] [p3|] d q];
    unfold viewable_properties_frames; simpl; intros H; try lia;
    destruct which; reflexivity.
Qed.

Lemma opened_viewable (which : PropertiesFrame) (s : UserInteface) :
  viewable_properties_frames (opened which s) = 1.
Proof. destruct which; reflexivity. Qed.

(** X6.  Opening one properties frame after another leaves the state that
    opening the second alone would have left: only the second is on screen,
    at (10, 40), whichever was open before, and nothing else has changed. *)
Theorem last_properties_frame_wins (display_size : nat * nat)
    (video_source : Engine) (events : list Event)
    (first second : PropertiesFrame) :
  let s := mainloop events (started display_size video_source) in
  let s' := run_command (show_properties second)
              (run_command (show_properties first) s) in
  s' = run_command (show_properties second) s
  /\ s' = opened second s
  /\ properties_frame second s' = Some (10, 40)%Z
  /\ controls (with_image_properties_frame None
                 (with_guidelines_properties_frame None
                    (with_detection_properties_frame None s')))
     = controls (with_image_properties_frame None
                   (with_guidelines_properties_frame None
                      (with_detection_properties_frame None s))).
Proof.
  cbv zeta.
  destruct (running_laid_out display_size video_source events) as (m0 & L).
  rewrite (@show_properties_opened first _ (lo_frames L)).
  rewrite (@show_properties_opened second _ (lo_frames L)).
  rewrite show_properties_opened by (rewrite opened_viewable; lia).
  destruct first, second; repeat split.
Qed.

(** *** The source menu *)

(** X7.  At any point of a run, picking entry [entry] of the 'Source' menu
    stores the identifier of the source listed at that position and calls
    [set_source] once, with that same identifier (each radio button has its
    own, bound when the menu was built); the mode stays.  Past the end of
    the list nothing happens. *)
Theorem source_choice_forwards_identifier (display_size : nat * nat)
    (video_source : Engine) (events : list Event) (entry : nat) :
  let s := mainloop events (started display_size video_source) in
  let s' := handle (choose SOURCE_MENU entry) s in
  match nth_error get_available_sources entry with
  | Some (name, i) =>
      _selected_source_index s' = i
      /\ _event_handler s' = _event_handler s ++ [set_source i]
      /\ _video_source s' = application (set_source i) (_video_source s)
      /\ layout_fields s' = layout_fields s
  | None => s' = s
  end.
Proof.
  cbv zeta.
  destruct (running_laid_out display_size video_source events) as (m0 & L).
  unfold SOURCE_MENU, handle; rewrite (lo_menubar L).
  replace (nth_error (menubar_of m0) 2)
    with (Some (add_cascade "Source" _source_menu)) by (now destruct m0).
  unfold _source_menu; rewrite nth_error_map.
  destruct (nth_error get_available_sources entry) as [[name i]|];
    simpl; repeat split.
Qed.

(** *** The video label *)

(** X8.  The display size is fixed when the interface is built, height first:
    for a window of [w] by [h], both positive, at any point of a run the
    stored size is [(h, w)]; whatever the video label holds is a buffer of
    [h] rows and [w] columns, and it holds one from the start when [show]
    returned; the placeholder is the one the freshly built interface
    makes, an 8-bit buffer of shape [(h, w)]. *)
Theorem display_always_fits (display_size : nat * nat)
    (video_source : Engine) (events : list Event) :
  0 < fst display_size -> 0 < snd display_size ->
  let s := mainloop events (started display_size video_source) in
  _display_size s = (snd display_size, fst display_size)
  /\ (forall f, _display s = Some f ->
                nth_error (shape f) 0 = Some (snd display_size)
                /\ nth_error (shape f) 1 = Some (fst display_size))
  /\ (fst (show (__init__ display_size video_source)) = None ->
      exists f, _display s = Some f)
  /\ _generate_placeholder_image s
     = _generate_placeholder_image (__init__ display_size video_source)
  /\ (exists p, _generate_placeholder_image s = returned p
                /\ shape p = [snd display_size; fst display_size]
                /\ dtype p = uint8).
Proof.
  intros Hw Hh; cbv zeta.
  set (s := mainloop events (started display_size video_source)).
  assert (D : _display_size s = (snd display_size, fst display_size)).
  { unfold s; rewrite mainloop_display_size; unfold started.
    now rewrite show_display_size. }
  assert (G : forall evs s0, display_fits s0 ->
                display_fits (mainloop evs s0)).
  { induction evs as [|ev evs IH]; intros s0 F; simpl; trivial.
    apply IH, handle_display_fits, F. }
  assert (K : forall evs s0, _display s0 <> None ->
                _display (mainloop evs s0) <> None).
  { induction evs as [|ev evs IH]; intros s0 N; simpl; trivial.
    apply IH, handle_display_kept, N. }
  split; [exact D |]; split; [| split; [| split]].
  - intros f Hf.
    assert (F : display_fits s).
    { apply G; unfold started; apply show_display_fits.
      intros f0; discriminate. }
    destruct (F f Hf) as [F0 F1]; now rewrite D in F0, F1.
  - intros R.
    destruct (_display s) as [f|] eqn:E; [now exists f |].
    exfalso; apply (K events (started display_size video_source));
      [apply show_returned_display, R | exact E].
  - unfold _generate_placeholder_image; now rewrite D.
  - destruct (@placeholder_positive s) as (p & P & _);
      [rewrite D; exact Hh | rewrite D; exact Hw |].
    exists p; split; [exact P |].
    apply placeholder_returned in P; now rewrite D in P.
Qed.

(** X9.  As long as the cadence is alive, frames reach the screen in the
    order the engine produces them, none skipped and none shown twice, one
    call ahead of the screen: when a callback is pending after [show] and
    [n] timer events, the video label holds the image made for frame [n],
    the pending callback holds frame [n + 1], and the engine has been asked
    [n + 2] times. *)
Theorem frames_shown_in_order (display_size : nat * nat)
    (video_source : Engine) (n : nat) :
  0 < fst display_size -> 0 < snd display_size ->
  let s := mainloop (repeat timer_fires n)
             (started display_size video_source) in
  after_queue s <> [] ->
  exists f g next,
    produced n video_source = returned f
    /\ shown_frame (__init__ display_size video_source) f = returned g
    /\ _display s = Some g
    /\ produced (S n) video_source = returned next
    /\ after_queue s = [mkTimer 20 next]
    /\ _video_source s = engine_after (n + 2) video_source.
Proof.
  intros _ _; cbv zeta; replace (n + 2) with (S (S n)) by lia.
  induction n as [|n IH]; intros N.
  - simpl in N |- *; unfold started in *.
    pose proof (show_cases (__init__ display_size video_source)) as C.
    unfold produced; simpl engine_after.
    change (_video_source (__init__ display_size video_source))
      with video_source in C.
    destruct (process_next_frame video_source) as [[first|x] e] eqn:P;
      rewrite C in N |- *; [| now simpl in N].
    destruct (updateVideoFrame_scheduled first
                (with_video_source e (__init__ display_size video_source))
                eq_refl N) as (g & next & Hg & Hn & ->).
    exists first, g, next; simpl in Hn |- *.
    rewrite (shown_frame_ext (__init__ display_size video_source)) in Hg
      by reflexivity.
    repeat split; assumption.
  - replace (repeat timer_fires (S n))
      with (repeat timer_fires n ++ [timer_fires]) in *
      by (symmetry; apply repeat_cons).
    rewrite mainloop_snoc in *.
    set (s := mainloop (repeat timer_fires n)
                (started display_size video_source)) in *.
    assert (D : _display_size s
                = _display_size (__init__ display_size video_source)).
    { unfold s; rewrite mainloop_display_size; unfold started.
      apply show_display_size. }
    destruct (after_queue s) as [|t pending] eqn:Q.
    { simpl in N; now rewrite Q in N. }
    destruct IH as (f & g & next & _ & _ & _ & Hnext & Hq & He);
      [discriminate |].
    injection Hq as -> ->.
    simpl handle in *; rewrite Q in *; simpl frame in *.
    destruct (updateVideoFrame_scheduled next (with_after_queue [] s)
                eq_refl N) as (g' & next' & Hg & Hn & ->).
    rewrite (shown_frame_ext (__init__ display_size video_source)) in Hg
      by (simpl; exact D).
    simpl in Hn |- *; rewrite He in Hn |- *.
    exists next, g', next'; repeat split; assumption.
Qed.

(** *** Check boxes *)

Lemma guidelines_box_unfold (s : UserInteface) :
  laid_out s Configuration ->
  handle (choose CONFIGURATION_MENU 2) s
  = change_guidelines_visibility
      (with_guidelines_hidden (negb (_guidelines_hidden s)) s).
Proof.
  intros L; unfold CONFIGURATION_MENU, handle; now rewrite (lo_menubar L).
Qed.

(** X10.  In the Configuration mode, picking 'Guidlines hidden' twice puts
    the flag back where it was, and the event handler has been told both
    values in turn: first the flipped flag, then the original one. *)
Theorem guidelines_box_twice (display_size : nat * nat)
    (video_source : Engine) (events : list Event) :
  let s := handle (switch_mode Configuration)
             (mainloop events (started display_size video_source)) in
  let s2 := handle (choose CONFIGURATION_MENU 2)
              (handle (choose CONFIGURATION_MENU 2) s) in
  _guidelines_hidden s2 = _guidelines_hidden s
  /\ _event_handler s2
     = _event_handler s
         ++ [set_guidelines_visibility (negb (_guidelines_hidden s));
             set_guidelines_visibility (_guidelines_hidden s)]
  /\ _video_source s2
     = application (set_guidelines_visibility (_guidelines_hidden s))
         (application
            (set_guidelines_visibility (negb (_guidelines_hidden s)))
            (_video_source s))
  /\ layout_fields s2 = layout_fields s.
Proof.
  cbv zeta.
  destruct (running_laid_out display_size video_source events) as (m0 & L).
  destruct (@switch_mode_laid_out _ m0 Configuration L) as (L' & _).
  remember (handle (switch_mode Configuration)
              (mainloop events (started display_size video_source))) as s.
  assert (L1 : laid_out (handle (choose CONFIGURATION_MENU 2) s)
                 Configuration).
  { rewrite (guidelines_box_unfold L').
    eapply laid_out_ext; [| exact L']; reflexivity. }
  rewrite (guidelines_box_unfold L1), (guidelines_box_unfold L').
  unfold change_guidelines_visibility, call_handler; simpl.
  rewrite negb_involutive, <- app_assoc; repeat split.
Qed.

(** *** What the video loop cannot touch *)

Lemma controls_timer (s : UserInteface) :
  controls (handle timer_fires s) = controls s.
Proof.
  simpl; destruct (after_queue s) as [|t pending]; [reflexivity |].
  destruct (updateVideoFrame_touches (frame t) (with_after_queue pending s))
    as (d & e & q & ->).
  reflexivity.
Qed.

Lemma invoke_controls (e : MenuEntry) (s1 s2 : UserInteface) :
  controls s1 = controls s2 ->
  controls (invoke e s1) = controls (invoke e s2).
Proof.
  destruct s1 as [ds1 vs1 eh1 gh1 ms1 cm1 si1 mb1 ml1 mu1 p1 g1 t1 d1 q1];
    destruct s2 as [ds2 vs2 eh2 gh2 ms2 cm2 si2 mb2 ml2 mu2 p2 g2 t2 d2 q2].
  unfold controls; simpl; intros E.
  injection E as -> -> -> -> -> -> -> -> -> -> -> ->.
  destruct p2, g2, t2;
    destruct e as [l c| |l v c|l v z c]; try destruct c; try destruct v;
    unfold_methods; simpl; try reflexivity;
    destruct (2 <? index_end mb2); reflexivity.
Qed.

Lemma handle_controls (ev : Event) (s1 s2 : UserInteface) :
  is_timer ev = false ->
  controls s1 = controls s2 ->
  controls (handle ev s1) = controls (handle ev s2).
Proof.
  intros T E; destruct ev as [menu entry| | |]; try discriminate.
  - assert (M : _menubar s1 = _menubar s2)
      by (unfold controls in E; congruence).
    simpl; rewrite M.
    destruct (nth_error (_menubar s2) menu) as [[|l entries]|]; trivial.
    destruct (nth_error entries entry); trivial.
    now apply invoke_controls.
  - destruct s1, s2; unfold controls in *; simpl in *.
    injection E as -> -> -> -> -> -> -> -> -> -> -> ->.
    unfold mute; simpl; split_ifs; reflexivity.
  - destruct s1, s2; unfold controls in *; simpl in *.
    injection E as -> -> -> -> -> -> -> -> -> -> -> ->.
    reflexivity.
Qed.

Lemma mainloop_controls (events : list Event) (s1 s2 : UserInteface) :
  controls s1 = controls s2 ->
  controls (mainloop events s1)
  = controls (mainloop (filter (fun ev => negb (is_timer ev)) events) s2).
Proof.
  revert s1 s2; induction events as [|ev events IH]; intros s1 s2 E; simpl;
    trivial.
  destruct (is_timer ev) eqn:T; simpl.
  - apply IH; destruct ev; try discriminate.
    now rewrite controls_timer.
  - apply IH; now apply handle_controls.
Qed.

(** X11.  The video loop has no way into the rest of the interface.  After
    any events, the menus, the flags, the mode and source selection, the
    labels, the properties frames and the calls made on the event handler
    are what the same events without the timer events would have left on the
    freshly built interface, whatever state the engine started in and
    whatever frames it delivered. *)
Theorem video_loop_leaves_controls (display_size : nat * nat)
    (video_source video_source' : Engine) (events : list Event) :
  controls (mainloop events (started display_size video_source))
  = controls
      (mainloop (filter (fun ev => negb (is_timer ev)) events)
         (__init__ display_size video_source')).
Proof.
  apply mainloop_controls; unfold started.
  destruct (show_touches (__init__ display_size video_source))
    as (d & e & q & ->).
  reflexivity.
Qed.

(** *** The 'MUTED' label *)

Lemma invoke_mute_label (e : MenuEntry) (s : UserInteface) :
  _mute_label (invoke e s) = _mute_label s.
Proof.
  destruct e as [l c| |l v c|l v z c]; try destruct c; try destruct v;
    unfold_methods; simpl; split_ifs; reflexivity.
Qed.

Lemma mute_box_unfold (s : UserInteface) :
  laid_out s Configuration ->
  handle (choose CONFIGURATION_MENU 5) s
  = call_handler change_mute_sounds
      (with_mute_sounds (negb (_mute_sounds s)) s).
Proof.
  intros L; unfold CONFIGURATION_MENU, handle; now rewrite (lo_menubar L).
Qed.

(** X12.  Only [mute] moves the 'MUTED' label.  Every other event leaves it
    where it is; [mute] puts it 55 pixels left of the window's right edge,
    10 down, when the flag is set and takes it away otherwise.  So picking
    'Mute alerts' flips the flag and tells the event handler, but the label
    keeps its old state until [mute] is called. *)
Theorem muted_label_moves_only_in_mute (display_size : nat * nat)
    (video_source : Engine) (events : list Event) :
  (forall ev : Event,
      let s := mainloop events (started display_size video_source) in
      _mute_label (handle ev s)
      = match ev with
        | app_mute =>
            if _mute_sounds s
            then Some (Z.of_nat (snd (_display_size s)) - 55, 10)%Z
            else None
        | _ => _mute_label s
        end)
  /\ (let s := mainloop events (started display_size video_source) in
      _mute_label (handle app_mute s)
      = if _mute_sounds s
        then Some (Z.of_nat (fst display_size) - 55, 10)%Z
        else None)
  /\ (let s := handle (switch_mode Configuration)
                 (mainloop events (started display_size video_source)) in
      let s' := handle (choose CONFIGURATION_MENU 5) s in
      _mute_sounds s' = negb (_mute_sounds s)
      /\ _mute_label s' = _mute_label s
      /\ _event_handler s' = _event_handler s ++ [change_mute_sounds]).
Proof.
  split; [| split].
  - intros ev; cbv zeta.
    generalize (mainloop events (started display_size video_source)).
    destruct ev as [menu entry| | |]; intros s; simpl.
    + destruct (nth_error (_menubar s) menu) as [[|l entries]|]; trivial.
      destruct (nth_error entries entry); trivial. apply invoke_mute_label.
    + destruct (after_queue s) as [|t pending]; trivial.
      destruct (updateVideoFrame_touches (frame t)
                  (with_after_queue pending s)) as (d & e & q & ->).
      reflexivity.
    + unfold mute; destruct (_mute_sounds s); reflexivity.
    + reflexivity.
  - cbv zeta; simpl handle; unfold mute.
    rewrite mainloop_display_size; unfold started.
    rewrite show_display_size.
    destruct (_mute_sounds _); reflexivity.
  - cbv zeta.
    destruct (running_laid_out display_size video_source events) as (m0 & L).
    destruct (@switch_mode_laid_out _ m0 Configuration L) as (L' & _).
    rewrite (mute_box_unfold L'); repeat split.
Qed.

(** *** The layout reload *)

Lemma menu_delete_last (m : list MenubarEntry) :
  m <> [] -> menu_delete (index_end m) m = removelast m.
Proof.
  intros N; unfold menu_delete, index_end.
  replace (S (List.length m - 1)) with (List.length m)
    by (destruct m; [contradiction | simpl; lia]).
  rewrite skipn_all, app_nil_r, removelast_firstn_len.
  f_equal; lia.
Qed.

(** X13.  Whatever is in the menu bar (it always holds its tear-off entry),
    [_reload_default_layout] removes at most one entry, the last one, and
    only when the bar holds more than the tear-off entry and two cascades:
    the first three entries (with 'Mode' and 'Source') are never removed.
    Nothing else of the interface changes besides the properties frame it
    hides. *)
Theorem reload_removes_last_entry_only (s : UserInteface) :
  _menubar s <> [] ->
  let s' := _reload_default_layout s in
  _menubar s'
  = (if 3 <? List.length (_menubar s)
     then removelast (_menubar s)
     else _menubar s)
  /\ firstn 3 (_menubar s') = firstn 3 (_menubar s)
  /\ viewable_properties_frames s' = viewable_properties_frames s - 1
  /\ controls (with_menubar []
                 (with_image_properties_frame None
                    (with_guidelines_properties_frame None
                       (with_detection_properties_frame None s'))))
     = controls (with_menubar []
                   (with_image_properties_frame None
                      (with_guidelines_properties_frame None
                         (with_detection_properties_frame None s)))).
Proof.
  intros _; cbv zeta.
  assert (M : _menubar (_reload_default_layout s)
              = if 3 <? List.length (_menubar s)
                then removelast (_menubar s) else _menubar s).
  { unfold _reload_default_layout.
    replace (2 <? index_end (_menubar s))
      with (3 <? List.length (_menubar s))
      by (unfold index_end; destruct (Nat.ltb_spec 3 (List.length (_menubar s)));
          symmetry; [apply Nat.ltb_lt | apply Nat.ltb_ge]; lia).
    destruct (Nat.ltb_spec 3 (List.length (_menubar s))) as [H|H].
    - rewrite <- menu_delete_last
        by (intros E; rewrite E in H; simpl in H; lia).
      unfold _hide_properties_frame; simpl; split_ifs; reflexivity.
    - unfold _hide_properties_frame; split_ifs; reflexivity. }
  split; [exact M |]; split.
  - rewrite M; destruct (Nat.ltb_spec 3 (List.length (_menubar s))) as [H|H];
      [| reflexivity].
    rewrite removelast_firstn_len, firstn_firstn; f_equal; lia.
  - destruct s as [ds vs eh gh ms cm si mb ml mu [p1|] [p2|] [p3|] d q];
      unfold _reload_default_layout, _hide_properties_frame,
        viewable_properties_frames, controls; simpl;
      destruct (2 <? index_end mb); split; reflexivity.
Qed.

(** *** When a change reaches the screen *)

(** C3, as the code has it.  When a frame goes on display the next one has
    already been taken from [process_next_frame] and is held by the pending
    callback.  Changes made before that callback runs reach the engine as
    the calls they make on the event handler, but they touch neither the
    frame on display nor the one held: the next frame on display is the one
    taken before the changes, and the frame after it is the first one taken
    from the engine as the calls left it.  The calls are these: a check box
    of the Configuration menu and a source of the Source menu each make one
    call on the event handler; a mode switch makes none and leaves the
    engine as it is. *)
Theorem change_reaches_second_frame (s : UserInteface)
    (video_frame : option MatLike) (changes : list Event) :
  after_queue s = [] ->
  forallb (fun ev => negb (is_timer ev)) changes = true ->
  fst (_updateVideoFrame video_frame s) = None ->
  let s1 := snd (_updateVideoFrame video_frame s) in
  let s2 := mainloop changes s1 in
  let s3 := handle timer_fires s2 in
  let s4 := handle timer_fires s3 in
  (exists held calls,
      fst (process_next_frame (_video_source s)) = returned held
      /\ after_queue s2 = [mkTimer 20 held]
      /\ _display s2 = _display s1
      /\ _event_handler s2 = _event_handler s1 ++ calls
      /\ _video_source s2
         = fold_left (fun engine c => application c engine) calls
             (_video_source s1)
      /\ _display s3
         = match shown_frame s held with
           | returned g => Some g
           | raised _ => _display s1
           end
      /\ (forall g second,
            shown_frame s held = returned g ->
            fst (process_next_frame (_video_source s2)) = returned second ->
            after_queue s3 = [mkTimer 20 second]
            /\ _display s4
               = match shown_frame s second with
                 | returned g2 => Some g2
                 | raised _ => Some g
                 end))
  /\ (forall (c : HandlerCall) (s0 : UserInteface),
        _event_handler (call_handler c s0) = _event_handler s0 ++ [c]
        /\ _video_source (call_handler c s0)
           = application c (_video_source s0))
  /\ (forall (display_size : nat * nat) (video_source : Engine)
        (events : list Event),
        let r := handle (switch_mode Configuration)
                   (mainloop events (started display_size video_source)) in
        handle (choose CONFIGURATION_MENU 2) r
        = call_handler
            (set_guidelines_visibility (negb (_guidelines_hidden r)))
            (with_guidelines_hidden (negb (_guidelines_hidden r)) r)
        /\ handle (choose CONFIGURATION_MENU 5) r
           = call_handler change_mute_sounds
               (with_mute_sounds (negb (_mute_sounds r)) r))
  /\ (forall (display_size : nat * nat) (video_source : Engine)
        (events : list Event) (m : OperatingMode),
        let r := mainloop events (started display_size video_source) in
        _event_handler (handle (switch_mode m) r) = _event_handler r
        /\ _video_source (handle (switch_mode m) r) = _video_source r
        /\ forall entry name i,
             nth_error get_available_sources entry = Some (name, i) ->
             handle (choose SOURCE_MENU entry) r
             = call_handler (set_source i)
                 (with_selected_source_index i r)).
Proof.
  intros Hq Hch Hr; cbv zeta; split; [| split; [| split]].
  - destruct (proj1 (updateVideoFrame_returns video_frame s) Hr)
      as ((g0 & G0) & (held & Hheld)).
    set (s1 := snd (_updateVideoFrame video_frame s)).
    set (s2 := mainloop changes s1).
    assert (Q1 : after_queue s1 = [mkTimer 20 held]).
    { unfold s1; rewrite updateVideoFrame_after_queue, Hr, Hheld, Hq.
      reflexivity. }
    assert (Q2 : after_queue s2 = [mkTimer 20 held]).
    { unfold s2; now rewrite mainloop_after_queue. }
    assert (D2 : _display_size (with_after_queue [] s2) = _display_size s).
    { simpl; unfold s2; rewrite mainloop_display_size.
      apply updateVideoFrame_display_size. }
    destruct (mainloop_calls changes s1 Hch) as (calls & L & E).
    assert (E3 : handle timer_fires s2
                 = snd (_updateVideoFrame held (with_after_queue [] s2))).
    { simpl; now rewrite Q2. }
    assert (D3 : _display (handle timer_fires s2)
                 = match shown_frame s held with
                   | returned g => Some g
                   | raised _ => _display s1
                   end).
    { rewrite E3, updateVideoFrame_label, (shown_frame_ext s) by exact D2.
      destruct (shown_frame s held); [reflexivity |].
      simpl; unfold s2; now rewrite mainloop_display. }
    exists held, calls.
    split; [exact Hheld |].
    split; [exact Q2 |].
    split; [unfold s2; now rewrite mainloop_display |].
    split; [exact L |].
    split; [exact E |].
    split; [exact D3 |].
    intros g second Hg Hsecond.
    assert (R3 : fst (_updateVideoFrame held (with_after_queue [] s2))
                 = None).
    { apply updateVideoFrame_returns; split.
      - exists g; now rewrite (shown_frame_ext s) by exact D2.
      - now exists second. }
    assert (Q3 : after_queue (handle timer_fires s2) = [mkTimer 20 second]).
    { rewrite E3, updateVideoFrame_after_queue, R3; simpl.
      now rewrite Hsecond. }
    split; [exact Q3 |].
    assert (S3 : _display_size (handle timer_fires s2) = _display_size s).
    { rewrite E3, updateVideoFrame_display_size; exact D2. }
    remember (handle timer_fires s2) as s3 eqn:Es3.
    unfold handle; rewrite Q3; simpl frame.
    rewrite updateVideoFrame_label.
    rewrite (shown_frame_ext s) by (simpl; exact S3).
    destruct (shown_frame s second); [reflexivity |].
    simpl; now rewrite D3, Hg.
  - intros c s0; split; reflexivity.
  - intros display_size video_source events; cbv zeta.
    destruct (running_laid_out display_size video_source events) as (m0 & L).
    destruct (@switch_mode_laid_out _ m0 Configuration L) as (L' & _).
    split; [apply (guidelines_box_unfold L') | apply (mute_box_unfold L')].
  - intros display_size video_source events m; cbv zeta.
    destruct (running_laid_out display_size video_source events) as (m0 & L).
    rewrite (switch_mode_switched m L).
    split; [reflexivity |]; split; [reflexivity |].
    intros entry name i H.
    unfold SOURCE_MENU, handle; rewrite (lo_menubar L).
    replace (nth_error (menubar_of m0) 2)
      with (Some (add_cascade "Source" _source_menu)) by (now destruct m0).
    unfold _source_menu; rewrite nth_error_map, H; reflexivity.
Qed.

(** *** The mute flag and the event handler *)

Definition is_mute_call (c : HandlerCall) : bool :=
  match c with change_mute_sounds => true | _ => false end.

(** How often the event handler was told [change_mute_sounds]. *)
Definition mute_calls (s : UserInteface) : nat :=
  List.length (filter is_mute_call (_event_handler s)).

(** The flag and the handler are in step: the flag is set exactly when the
    handler was told an odd number of times. *)
Definition mute_in_step (s : UserInteface) : Prop :=
  _mute_sounds s = Nat.odd (mute_calls s).

Lemma mute_in_step_ext (s s' : UserInteface) :
  _mute_sounds s' = _mute_sounds s ->
  filter is_mute_call (_event_handler s')
  = filter is_mute_call (_event_handler s) ->
  mute_in_step s -> mute_in_step s'.
Proof. unfold mute_in_step, mute_calls; intros -> ->; trivial. Qed.

Lemma handle_mute_in_step (ev : Event) (s : UserInteface)
    (m0 : OperatingMode) :
  laid_out s m0 -> mute_in_step s -> mute_in_step (handle ev s).
Proof.
  intros L I; destruct ev as [menu entry| | |].
  - unfold handle; rewrite (lo_menubar L).
    destruct menu as [|[|[|[|menu]]]].
    + destruct m0; exact I.
    + replace (nth_error (menubar_of m0) 1)
        with (Some (add_cascade "Mode" _mode_menu)) by (now destruct m0).
      destruct (nth_error _mode_menu entry) as [e|] eqn:E; [| exact I].
      destruct (@invoke_mode_entry s m0 entry e L E) as (m & -> & _).
      rewrite mode_menu_entry in E; injection E as <-.
      change (mute_in_step (run_command (mode_command m)
                              (with_selected_camera_mode (mode_value m) s))).
      rewrite <- (switch_mode_unfold m L), (switch_mode_switched m L).
      apply (@mute_in_step_ext s); trivial.
    + replace (nth_error (menubar_of m0) 2)
        with (Some (add_cascade "Source" _source_menu)) by (now destruct m0).
      destruct (nth_error _source_menu entry) as [e|] eqn:E; [| exact I].
      apply source_menu_entry in E; destruct E as (name & i & ->).
      apply (@mute_in_step_ext s); trivial.
      simpl; rewrite filter_app; apply app_nil_r.
    + destruct m0; [exact I | exact I |].
      change (nth_error (menubar_of Configuration) 3)
        with (Some (add_cascade "Configuration" _config_menu)).
      cbv beta iota.
      destruct (nth_error _config_menu entry) as [e|] eqn:E; [| exact I].
      apply config_menu_entry in E.
      destruct E as [-> | [(l & which & ->) | [-> | ->]]].
      * exact I.
      * change (mute_in_step (run_command (show_properties which) s)).
        rewrite (@show_properties_opened which s (lo_frames L)).
        apply (@mute_in_step_ext s); trivial; now destruct which.
      * apply (@mute_in_step_ext s); trivial.
        simpl; rewrite filter_app; apply app_nil_r.
      * unfold mute_in_step, mute_calls in *; simpl.
        rewrite filter_app, length_app, Nat.add_1_r, Nat.odd_succ.
        now rewrite <- Nat.negb_odd, <- I.
    + replace (nth_error (menubar_of m0) (S (S (S (S menu))))) with
        (@None MenubarEntry)
        by (destruct m0; simpl; destruct menu; reflexivity).
      exact I.
  - simpl; destruct (after_queue s) as [|t pending]; [exact I |].
    destruct (updateVideoFrame_touches (frame t) (with_after_queue pending s))
      as (d & e & q & ->).
    apply (@mute_in_step_ext s); trivial.
  - unfold handle, mute; destruct (_mute_sounds s) eqn:M;
      apply (@mute_in_step_ext s); trivial.
  - apply (@mute_in_step_ext s); trivial.
    simpl; rewrite filter_app; apply app_nil_r.
Qed.

Lemma running_mute_in_step (display_size : nat * nat)
    (video_source : Engine) (events : list Event) :
  mute_in_step (mainloop events (started display_size video_source)).
Proof.
  assert (G : forall evs s m0, laid_out s m0 -> mute_in_step s ->
                mute_in_step (mainloop evs s)).
  { induction evs as [|ev evs IH]; intros s m0 L I; simpl; trivial.
    destruct (@handle_laid_out ev s m0 L) as (m & Lm).
    apply (IH _ m Lm), (handle_mute_in_step ev L I). }
  apply (G events _ RearviewMirror (started_laid_out _ _)).
  unfold started.
  destruct (show_touches (__init__ display_size video_source))
    as (d & e & q & ->).
  reflexivity.
Qed.


(** *** Runs with and without the mute toggles *)

(** The events that have to do with muting: the user picks 'Mute alerts'
    (entry 5 of the menu at position 3 of the bar), and the application
    calls [mute]. *)
Definition is_mute_event (ev : Event) : bool :=
  match ev with
  | choose 3 5 => true
  | app_mute => true
  | _ => false
  end.

(** A run with the mute toggles taken out. *)
Definition mute_free (events : list Event) : list Event :=
  filter (fun ev => negb (is_mute_event ev)) events.

Lemma handle_mute_label (ev : Event) (s : UserInteface) :
  ev <> app_mute -> _mute_label (handle ev s) = _mute_label s.
Proof.
  intros N; destruct ev as [menu entry| | |]; simpl; [| | congruence |].
  - destruct (nth_error (_menubar s) menu) as [[|l entries]|]; trivial.
    destruct (nth_error entries entry); trivial. apply invoke_mute_label.
  - destruct (after_queue s) as [|t pending]; trivial.
    destruct (updateVideoFrame_touches (frame t)
                (with_after_queue pending s)) as (d & e & q & ->).
    reflexivity.
  - reflexivity.
Qed.

Lemma mainloop_mute_label (evs : list Event) (s : UserInteface) :
  ~ In app_mute evs -> _mute_label (mainloop evs s) = _mute_label s.
Proof.
  revert s; induction evs as [|ev evs IH]; intros s N; simpl; trivial.
  change (_mute_label (mainloop evs (handle ev s)) = _mute_label s).
  rewrite IH by (intros I; apply N; now right).
  apply handle_mute_label; intros ->; apply N; now left.
Qed.

Lemma mainloop_app (evs1 evs2 : list Event) (s : UserInteface) :
  mainloop (evs1 ++ evs2) s = mainloop evs2 (mainloop evs1 s).
Proof. apply fold_left_app. Qed.

Lemma filter_twice (A : Type) (f : A -> bool) (l : list A) :
  filter f (filter f l) = filter f l.
Proof.
  induction l as [|a l IH]; simpl; trivial.
  destruct (f a) eqn:E; simpl; rewrite ?E, IH; reflexivity.
Qed.

Section MuteBlind.

(** What is left of the engine's state when the part that muting may touch
    is blanked.  The engine is blind to that part: the frame it hands over
    and the rest of its state do not depend on it, and a
    [change_mute_sounds] call touches nothing else. *)
Variable blank : Engine -> Engine.

Hypothesis blank_twice : forall e, blank (blank e) = blank e.
Hypothesis frame_blind :
  forall e, fst (process_next_frame (blank e)) = fst (process_next_frame e).
Hypothesis step_blind :
  forall e,
    blank (snd (process_next_frame (blank e)))
    = blank (snd (process_next_frame e)).
Hypothesis told_blind :
  forall c e, blank (application c (blank e)) = blank (application c e).
Hypothesis mute_blind :
  forall e, blank (application change_mute_sounds e) = blank e.

(** The interface with everything muting may touch blanked: the engine's
    part, the [change_mute_sounds] calls on record, the flag and the
    label. *)
Definition without_mute (s : UserInteface) : UserInteface :=
  mkUI (_display_size s) (blank (_video_source s))
    (filter (fun c => negb (is_mute_call c)) (_event_handler s))
    (_guidelines_hidden s) false (_selected_camera_mode s)
    (_selected_source_index s) (_menubar s) (_mode_label s) None
    (_image_properties_frame s) (_guidelines_properties_frame s)
    (_detection_properties_frame s) (_display s) (after_queue s).

Lemma invoke_without_mute (e : MenuEntry) (s : UserInteface) :
  without_mute (invoke e s) = without_mute (invoke e (without_mute s)).
Proof.
  destruct s as [ds vs eh gh ms cm si mb ml mu fi fg fd d q].
  destruct e as [l c| |l v c|l v z c]; try destruct c; try destruct v;
    unfold_methods; unfold without_mute; simpl;
    destruct (2 <? index_end mb); destruct fi, fg, fd; simpl;
    rewrite ?filter_app, ?filter_twice, ?told_blind, ?blank_twice;
    reflexivity.
Qed.

Lemma updateVideoFrame_without_mute (video_frame : option MatLike)
    (s : UserInteface) :
  without_mute (snd (_updateVideoFrame video_frame s))
  = without_mute (snd (_updateVideoFrame video_frame (without_mute s))).
Proof.
  unfold _updateVideoFrame.
  rewrite (@shown_frame_ext s (without_mute s)) by reflexivity.
  destruct (shown_frame s video_frame) as [g|x]; simpl.
  - pose proof (frame_blind (_video_source s)) as F.
    pose proof (step_blind (_video_source s)) as S.
    destruct (process_next_frame (_video_source s)) as [o engine].
    destruct (process_next_frame (blank (_video_source s))) as [o' engine'].
    simpl in F, S; subst o'.
    destruct o as [next|x]; unfold without_mute; simpl;
      rewrite S, filter_twice; reflexivity.
  - unfold without_mute; simpl; rewrite filter_twice, blank_twice.
    reflexivity.
Qed.

Lemma handle_without_mute (ev : Event) (s : UserInteface) :
  without_mute (handle ev s) = without_mute (handle ev (without_mute s)).
Proof.
  destruct ev as [menu entry| | |]; unfold handle.
  - change (_menubar (without_mute s)) with (_menubar s).
    destruct (nth_error (_menubar s) menu) as [[|l entries]|];
      try (unfold without_mute; simpl;
           now rewrite filter_twice, blank_twice).
    destruct (nth_error entries entry) as [e|];
      [apply invoke_without_mute |].
    unfold without_mute; simpl; now rewrite filter_twice, blank_twice.
  - change (after_queue (without_mute s)) with (after_queue s).
    destruct (after_queue s) as [|t pending];
      [unfold without_mute; simpl; now rewrite filter_twice, blank_twice |].
    rewrite updateVideoFrame_without_mute.
    reflexivity.
  - unfold mute, without_mute; simpl; destruct (_mute_sounds s); simpl;
      now rewrite filter_twice, blank_twice.
  - unfold_methods; unfold without_mute; simpl.
    now rewrite !filter_app, filter_twice, told_blind.
Qed.

Lemma handle_mute_event (ev : Event) (s : UserInteface)
    (m : OperatingMode) :
  laid_out s m -> is_mute_event ev = true ->
  without_mute (handle ev s) = without_mute s.
Proof.
  intros L M.
  destruct ev as [[|[|[|[|menu]]]] [|[|[|[|[|[|entry]]]]]]| | |];
    try discriminate M.
  - destruct m;
      try (unfold handle; rewrite (lo_menubar L); reflexivity).
    change (handle (choose 3 5) s)
      with (handle (choose CONFIGURATION_MENU 5) s).
    rewrite (mute_box_unfold L).
    unfold_methods; unfold without_mute; simpl.
    now rewrite filter_app, app_nil_r, mute_blind.
  - unfold handle, mute; destruct (_mute_sounds s); reflexivity.
Qed.

Lemma mainloop_without_mute (evs : list Event) :
  forall (s1 s2 : UserInteface) (m : OperatingMode),
    laid_out s1 m -> without_mute s1 = without_mute s2 ->
    without_mute (mainloop evs s1) = without_mute (mainloop (mute_free evs) s2).
Proof.
  induction evs as [|ev evs IH]; intros s1 s2 m L E; simpl; trivial.
  destruct (@handle_laid_out ev s1 m L) as (m' & L').
  destruct (is_mute_event ev) eqn:M; simpl.
  - apply (IH _ _ m' L'). now rewrite (@handle_mute_event ev s1 m L M).
  - apply (IH _ _ m' L').
    now rewrite handle_without_mute, E, <- handle_without_mute.
Qed.

(** Muting is in a flag of the engine, which [change_mute_sounds] flips and
    nothing else touches. *)
Variable flag : Engine -> bool.

Hypothesis flag_step :
  forall e, flag (snd (process_next_frame e)) = flag e.
Hypothesis flag_told :
  forall c e,
    flag (application c e)
    = if is_mute_call c then negb (flag e) else flag e.

(** The interface's flag and the engine's move together. *)
Definition flags_in_step (e0 : Engine) (s : UserInteface) : Prop :=
  flag (_video_source s) = xorb (flag e0) (_mute_sounds s).

Lemma updateVideoFrame_flag (video_frame : option MatLike)
    (s : UserInteface) :
  flag (_video_source (snd (_updateVideoFrame video_frame s)))
  = flag (_video_source s)
  /\ _mute_sounds (snd (_updateVideoFrame video_frame s)) = _mute_sounds s.
Proof.
  unfold _updateVideoFrame.
  destruct (shown_frame s video_frame) as [g|x]; simpl; [| now split].
  pose proof (flag_step (_video_source s)) as F.
  destruct (process_next_frame (_video_source s)) as [[next|x] engine];
    simpl in *; now split.
Qed.

Lemma flags_in_step_ext (e0 : Engine) (s s' : UserInteface) :
  flag (_video_source s') = flag (_video_source s) ->
  _mute_sounds s' = _mute_sounds s ->
  flags_in_step e0 s -> flags_in_step e0 s'.
Proof. unfold flags_in_step; intros -> ->; trivial. Qed.

Lemma handle_flags_in_step (e0 : Engine) (ev : Event) (s : UserInteface)
    (m0 : OperatingMode) :
  laid_out s m0 -> flags_in_step e0 s -> flags_in_step e0 (handle ev s).
Proof.
  intros L I; destruct ev as [menu entry| | |].
  - unfold handle; rewrite (lo_menubar L).
    destruct menu as [|[|[|[|menu]]]].
    + destruct m0; exact I.
    + replace (nth_error (menubar_of m0) 1)
        with (Some (add_cascade "Mode" _mode_menu)) by (now destruct m0).
      destruct (nth_error _mode_menu entry) as [e|] eqn:E; [| exact I].
      destruct (@invoke_mode_entry s m0 entry e L E) as (m & -> & _).
      rewrite mode_menu_entry in E; injection E as <-.
      change (flags_in_step e0
                (run_command (mode_command m)
                   (with_selected_camera_mode (mode_value m) s))).
      rewrite <- (switch_mode_unfold m L), (switch_mode_switched m L).
      apply (@flags_in_step_ext e0 s); trivial.
    + replace (nth_error (menubar_of m0) 2)
        with (Some (add_cascade "Source" _source_menu)) by (now destruct m0).
      destruct (nth_error _source_menu entry) as [e|] eqn:E; [| exact I].
      apply source_menu_entry in E; destruct E as (name & i & ->).
      apply (@flags_in_step_ext e0 s); trivial.
      simpl; now rewrite flag_told.
    + destruct m0; [exact I | exact I |].
      change (nth_error (menubar_of Configuration) 3)
        with (Some (add_cascade "Configuration" _config_menu)).
      cbv beta iota.
      destruct (nth_error _config_menu entry) as [e|] eqn:E; [| exact I].
      apply config_menu_entry in E.
      destruct E as [-> | [(l & which & ->) | [-> | ->]]].
      * exact I.
      * change (flags_in_step e0 (run_command (show_properties which) s)).
        rewrite (@show_properties_opened which s (lo_frames L)).
        apply (@flags_in_step_ext e0 s); trivial; now destruct which.
      * apply (@flags_in_step_ext e0 s); trivial.
        simpl; now rewrite flag_told.
      * unfold flags_in_step in *; simpl.
        rewrite flag_told, I; simpl.
        now destruct (flag e0), (_mute_sounds s).
    + replace (nth_error (menubar_of m0) (S (S (S (S menu))))) with
        (@None MenubarEntry)
        by (destruct m0; simpl; destruct menu; reflexivity).
      exact I.
  - simpl; destruct (after_queue s) as [|t pending]; [exact I |].
    unfold flags_in_step.
    destruct (updateVideoFrame_flag (frame t) (with_after_queue pending s))
      as (-> & ->).
    exact I.
  - unfold handle, mute; destruct (_mute_sounds s) eqn:M;
      apply (@flags_in_step_ext e0 s); trivial.
  - apply (@flags_in_step_ext e0 s); trivial.
    simpl; now rewrite flag_told.
Qed.

Lemma running_flags_in_step (display_size : nat * nat)
    (video_source : Engine) (events : list Event) :
  flags_in_step video_source
    (mainloop events (started display_size video_source)).
Proof.
  assert (G : forall evs s m0, laid_out s m0 ->
                flags_in_step video_source s ->
                flags_in_step video_source (mainloop evs s)).
  { induction evs as [|ev evs IH]; intros s m0 L I; simpl; trivial.
    destruct (@handle_laid_out ev s m0 L) as (m & Lm).
    apply (IH _ m Lm), (handle_flags_in_step ev L I). }
  apply (G events _ RearviewMirror (started_laid_out _ _)).
  unfold flags_in_step, started, show; simpl.
  pose proof (flag_step video_source) as F.
  destruct (process_next_frame video_source) as [[first|x] engine];
    simpl in *.
  - destruct (updateVideoFrame_flag first
                (with_video_source engine (__init__ display_size video_source)))
      as (-> & ->).
    simpl; rewrite F; now destruct (flag video_source).
  - rewrite F; now destruct (flag video_source).
Qed.

End MuteBlind.


(** Events other than the mute toggles leave the flag and the
    [change_mute_sounds] calls on record as they are. *)
Lemma handle_mute_kept (ev : Event) (s : UserInteface) (m0 : OperatingMode) :
  laid_out s m0 -> is_mute_event ev = false ->
  _mute_sounds (handle ev s) = _mute_sounds s
  /\ filter is_mute_call (_event_handler (handle ev s))
     = filter is_mute_call (_event_handler s).
Proof.
  intros L M; destruct ev as [menu entry| | |].
  - unfold handle; rewrite (lo_menubar L).
    destruct menu as [|[|[|[|menu]]]].
    + destruct m0; now split.
    + replace (nth_error (menubar_of m0) 1)
        with (Some (add_cascade "Mode" _mode_menu)) by (now destruct m0).
      cbv beta iota.
      destruct entry as [|[|[|entry]]]; simpl nth_error; cbv beta iota;
        try (unfold_methods; split_ifs; now split).
      destruct entry; now split.
    + replace (nth_error (menubar_of m0) 2)
        with (Some (add_cascade "Source" _source_menu)) by (now destruct m0).
      destruct (nth_error _source_menu entry) as [e|] eqn:E; [| now split].
      apply source_menu_entry in E; destruct E as (name & i & ->).
      split; trivial.
      simpl; rewrite filter_app; apply app_nil_r.
    + destruct m0; [now split | now split |].
      change (nth_error (menubar_of Configuration) 3)
        with (Some (add_cascade "Configuration" _config_menu)).
      cbv beta iota.
      destruct entry as [|[|[|[|[|[|[|entry]]]]]]]; simpl nth_error;
        cbv beta iota; try discriminate M; try (now split);
        try (unfold_methods; split_ifs; now split).
      * split; trivial.
        unfold_methods; simpl; rewrite filter_app; apply app_nil_r.
      * destruct entry; now split.
    + replace (nth_error (menubar_of m0) (S (S (S (S menu))))) with
        (@None MenubarEntry)
        by (destruct m0; simpl; destruct menu; reflexivity).
      now split.
  - simpl; destruct (after_queue s) as [|t pending]; [now split |].
    destruct (updateVideoFrame_touches (frame t) (with_after_queue pending s))
      as (d & e & q & ->).
    now split.
  - discriminate M.
  - split; trivial.
    simpl; rewrite filter_app; apply app_nil_r.
Qed.

Lemma mute_free_run (display_size : nat * nat) (video_source : Engine)
    (events : list Event) :
  let s := mainloop (mute_free events) (started display_size video_source) in
  _mute_sounds s = false /\ mute_calls s = 0 /\ _mute_label s = None.
Proof.
  cbv zeta.
  assert (G : forall evs s m0, laid_out s m0 ->
                _mute_sounds (mainloop (mute_free evs) s) = _mute_sounds s
                /\ mute_calls (mainloop (mute_free evs) s) = mute_calls s
                /\ _mute_label (mainloop (mute_free evs) s) = _mute_label s).
  { induction evs as [|ev evs IH]; intros s m0 L; simpl; [now repeat split |].
    destruct (is_mute_event ev) eqn:M; simpl; [now apply (IH s m0) |].
    destruct (@handle_laid_out ev s m0 L) as (m & Lm).
    destruct (IH _ m Lm) as (-> & -> & ->).
    destruct (@handle_mute_kept ev s m0 L M) as (-> & F).
    unfold mute_calls; rewrite F; repeat split.
    apply handle_mute_label; intros ->; discriminate M. }
  destruct (G events _ RearviewMirror
              (started_laid_out display_size video_source)) as (-> & -> & ->).
  unfold started, mute_calls.
  destruct (show_touches (__init__ display_size video_source))
    as (d & e & q & ->).
  repeat split.
Qed.

(** The label is where the last [mute] call of the run has put it. *)
Lemma mute_label_of_last_call (display_size : nat * nat)
    (video_source : Engine) (before later : list Event) :
  ~ In app_mute later ->
  winfo_viewable
    (_mute_label (mainloop (before ++ app_mute :: later)
                    (started display_size video_source)))
  = _mute_sounds (mainloop before (started display_size video_source)).
Proof.
  intros N; rewrite mainloop_app.
  change (mainloop (app_mute :: later) ?s)
    with (mainloop later (handle app_mute s)).
  rewrite (mainloop_mute_label _ _ N).
  unfold handle, mute; destruct (_mute_sounds _); reflexivity.
Qed.

Lemma mute_label_before_first_call (display_size : nat * nat)
    (video_source : Engine) (events : list Event) :
  ~ In app_mute events ->
  _mute_label (mainloop events (started display_size video_source)) = None.
Proof.
  intros N; rewrite (mainloop_mute_label _ _ N); unfold started.
  destruct (show_touches (__init__ display_size video_source))
    as (d & e & q & ->).
  reflexivity.
Qed.

End Interface.

(** ** The interface on the specified pipeline *)

Section OnPipeline.

Variable condition : MatLike -> MatLike.
Variable render : MatLike -> MatLike.
Variable proximity : MatLike -> option Z.
Variable open_source : Z -> list (option MatLike).
Variable get_available_sources : list (string * Z).
Variable draw_text :
  MatLike -> string -> nat * nat -> HersheyFont -> nat ->
  byte * byte * byte -> nat -> list byte.

#[local] Abbreviation engine_step :=
  (Pipeline.process_next_frame condition render proximity).
#[local] Abbreviation engine_told := (Pipeline.application open_source).

Lemma unmuted_twice (st : Pipeline.State) :
  Pipeline.unmuted (Pipeline.unmuted st) = Pipeline.unmuted st.
Proof. reflexivity. Qed.

(** A tick hands over the same frame and the same classification whatever
    the mute flag, and leaves the flag as it is. *)
Lemma tick_unmuted (st : Pipeline.State) :
  let t := Pipeline.tick condition render proximity st in
  let t' := Pipeline.tick condition render proximity (Pipeline.unmuted st) in
  fst t' = fst t
  /\ Pipeline.unmuted (snd t') = Pipeline.unmuted (snd t)
  /\ Pipeline.muted (snd t) = Pipeline.muted st
  /\ Pipeline.audible (snd t)
     = Pipeline.active (Pipeline.alert (snd t)) && negb (Pipeline.muted st).
Proof.
  unfold Pipeline.tick, Pipeline.unmuted; simpl.
  destruct (Pipeline.activeStages (Pipeline.mode st)) as [guidelines detection].
  destruct detection;
    [destruct (option_map condition (hd None (Pipeline.feed st)));
       [destruct (Pipeline.detect proximity _ _ _) |] |];
    repeat split.
Qed.

Lemma engine_step_frame (st : Pipeline.State) :
  fst (engine_step (Pipeline.unmuted st)) = fst (engine_step st).
Proof.
  unfold Pipeline.process_next_frame.
  destruct (tick_unmuted st) as (F & _).
  destruct (Pipeline.tick condition render proximity st) as [c t].
  destruct (Pipeline.tick condition render proximity (Pipeline.unmuted st))
    as [c' t'].
  simpl in *; now subst.
Qed.

Lemma engine_step_unmuted (st : Pipeline.State) :
  Pipeline.unmuted (snd (engine_step (Pipeline.unmuted st)))
  = Pipeline.unmuted (snd (engine_step st)).
Proof.
  unfold Pipeline.process_next_frame.
  destruct (tick_unmuted st) as (_ & U & _).
  destruct (Pipeline.tick condition render proximity st) as [c t].
  destruct (Pipeline.tick condition render proximity (Pipeline.unmuted st))
    as [c' t'].
  exact U.
Qed.

Lemma engine_step_muted (st : Pipeline.State) :
  Pipeline.muted (snd (engine_step st)) = Pipeline.muted st.
Proof.
  unfold Pipeline.process_next_frame.
  destruct (tick_unmuted st) as (_ & _ & M & _).
  destruct (Pipeline.tick condition render proximity st) as [c t].
  exact M.
Qed.

Lemma engine_told_unmuted (c : HandlerCall) (st : Pipeline.State) :
  Pipeline.unmuted (engine_told c (Pipeline.unmuted st))
  = Pipeline.unmuted (engine_told c st).
Proof. destruct c; reflexivity. Qed.

Lemma engine_told_muted (c : HandlerCall) (st : Pipeline.State) :
  Pipeline.muted (engine_told c st)
  = if is_mute_call c then negb (Pipeline.muted st) else Pipeline.muted st.
Proof. destruct c; reflexivity. Qed.

#[local] Abbreviation ui_started :=
  (started engine_step get_available_sources draw_text).
#[local] Abbreviation ui_mainloop := (mainloop engine_step engine_told draw_text).
#[local] Abbreviation ui_handle := (handle engine_step engine_told draw_text).


End OnPipeline.

(** ** The sample installation at work

    A window of width 4 and height 2, the guidelines drawn. *)

Abbreviation sample_update :=
  (_updateVideoFrame Sample.process_next_frame Sample.draw_text).

Abbreviation sample_handle :=
  (handle Sample.process_next_frame Sample.application Sample.draw_text).

Abbreviation sample_mainloop :=
  (mainloop Sample.process_next_frame Sample.application Sample.draw_text).

Abbreviation sample_built :=
  (__init__ Sample.get_available_sources (4, 2) false).

Abbreviation sample_started :=
  (started Sample.process_next_frame Sample.get_available_sources
     Sample.draw_text (4, 2) false).

Example sample_started_display :
  show Sample.process_next_frame Sample.draw_text sample_built
  = (None, sample_started)
  /\ _display sample_started = Some (Sample.picture false)
  /\ _display_size sample_started = (2, 4)
  /\ after_queue sample_started = [mkTimer 20 (Some (Sample.picture false))].
Proof.
  split; [vm_compute; reflexivity |].
  split; [vm_compute; reflexivity |].
  split; vm_compute; reflexivity.
Qed.

(** C1 at work: a picture of the wrong height is replaced by the
    placeholder, and a picture that fits is put on display as it is. *)
Lemma updateVideoFrame_display_sample :
  (0 < fst (_display_size sample_started)
   /\ 0 < snd (_display_size sample_started))
  /\ (exists p : MatLike,
         _generate_placeholder_image Sample.draw_text sample_started
         = returned p
         /\ _display (snd (sample_update (Some Sample.small_picture)
                             sample_started)) = Some p
         /\ shape p = [2; 4])
  /\ _display (snd (sample_update (Some (Sample.picture true))
                      sample_started))
     = Some (Sample.picture true).
Proof.
  assert (H : 0 < fst (_display_size sample_started)) by (vm_compute; lia).
  assert (W : 0 < snd (_display_size sample_started)) by (vm_compute; lia).
  split; [split; [exact H | exact W] |].
  split.
  - apply (proj1 (updateVideoFrame_display Sample.process_next_frame
                    Sample.draw_text sample_started
                    (Some Sample.small_picture) H W)).
    right; exists Sample.small_picture; split; [reflexivity |].
    left; exists 1; split; [reflexivity | vm_compute; discriminate].
  - exact (proj1 (proj2 (updateVideoFrame_display Sample.process_next_frame
                           Sample.draw_text sample_started
                           (Some (Sample.picture true)) H W))
             (Sample.picture true) eq_refl eq_refl eq_refl).
Defined.

(** C1 fails as stated.  A picture of 64-bit floats has the display's height
    and width, so it is not replaced; but Pillow has no mode for it, the
    update raises, and the picture is not put on display: the label keeps
    the picture it had.  The same goes for a picture of five channels.  And
    for a window without height no placeholder can be made: [cv.putText]
    raises on the empty buffer, and a missing frame leaves the label
    without any image. *)
Lemma fitting_frame_not_displayed :
  (nth_error (shape Sample.float_picture) 0
   = Some (fst (_display_size sample_started))
   /\ nth_error (shape Sample.float_picture) 1
      = Some (snd (_display_size sample_started)))
  /\ sample_update (Some Sample.float_picture) sample_started
     = (Some TypeError, sample_started)
  /\ _display (snd (sample_update (Some Sample.float_picture)
                      sample_started))
     <> Some Sample.float_picture
  /\ sample_update (Some Sample.five_channel_picture) sample_started
     = (Some TypeError, sample_started)
  /\ (let s := __init__ Sample.get_available_sources (4, 0) false in
      _generate_placeholder_image Sample.draw_text s = raised cv2_error
      /\ sample_update None s = (Some cv2_error, s)
      /\ _display (snd (sample_update None s)) = None).
Proof.
  split; [split; vm_compute; reflexivity |].
  split; [vm_compute; reflexivity |].
  split; [vm_compute; discriminate |].
  split; [vm_compute; reflexivity |].
  cbv zeta; split; [vm_compute; reflexivity |].
  split; vm_compute; reflexivity.
Qed.



(** C3 fails as stated.  The first frame is on display; before the next one
    the user has the guidelines hidden, and the application has told the
    engine, which from now on delivers the picture without guidelines.  The
    next frame put on display is still the picture with the guidelines: it
    was processed before the change.  The change shows one frame later.  A
    mode change does not show at all: the interface tells neither the
    handler nor the engine. *)
Lemma change_not_in_next_frame :
  (let s2 := sample_mainloop hide_guidelines sample_started in
   let s3 := sample_handle timer_fires s2 in
   let s4 := sample_handle timer_fires s3 in
   _guidelines_hidden s2 = true
   /\ _event_handler s2 = [set_guidelines_visibility true]
   /\ _video_source s2 = true
   /\ fst (Sample.process_next_frame (_video_source s2))
      = returned (Some (Sample.picture true))
   /\ _display s3 = Some (Sample.picture false)
   /\ _display s3 <> Some (Sample.picture true)
   /\ _display s4 = Some (Sample.picture true))
  /\ (let r := sample_mainloop [switch_mode ParkAssistant] sample_started in
      _selected_camera_mode r = 0%Z
      /\ _event_handler r = []
      /\ _video_source r = _video_source sample_started
      /\ after_queue r = after_queue sample_started).
Proof.
  cbv zeta.
  split.
  - split; [vm_compute; reflexivity |].
    split; [vm_compute; reflexivity |].
    split; [vm_compute; reflexivity |].
    split; [vm_compute; reflexivity |].
    split; [vm_compute; reflexivity |].
    split; [vm_compute; discriminate | vm_compute; reflexivity].
  - split; [vm_compute; reflexivity |].
    split; [vm_compute; reflexivity |].
    split; vm_compute; reflexivity.
Qed.

(** C3 at work, from the state [__init__] leaves: no callback is pending,
    the changes hold no timer event and the first update returns.  The
    handler call the change makes is on record and has reached the engine;
    the frame shown next is the one taken before, the frame after it the one
    taken after. *)
Lemma change_reaches_second_frame_sample :
  (after_queue sample_built = []
   /\ forallb (fun ev => negb (is_timer ev)) hide_guidelines = true
   /\ fst (sample_update (Some (Sample.picture false)) sample_built) = None)
  /\ (let s1 := snd (sample_update (Some (Sample.picture false))
                       sample_built) in
      let s2 := sample_mainloop hide_guidelines s1 in
      let s3 := sample_handle timer_fires s2 in
      let s4 := sample_handle timer_fires s3 in
      exists (held : option MatLike) (calls : list HandlerCall),
        fst (Sample.process_next_frame (_video_source sample_built))
        = returned held
        /\ after_queue s2 = [mkTimer 20 held]
        /\ _display s2 = _display s1
        /\ _event_handler s2 = _event_handler s1 ++ calls
        /\ _video_source s2
           = fold_left (fun engine c => Sample.application c engine) calls
               (_video_source s1)
        /\ _display s3
           = match shown_frame Sample.draw_text sample_built held with
             | returned g => Some g
             | raised _ => _display s1
             end
        /\ (forall (g : MatLike) (second : option MatLike),
               shown_frame Sample.draw_text sample_built held = returned g ->
               fst (Sample.process_next_frame (_video_source s2))
               = returned second ->
               after_queue s3 = [mkTimer 20 second]
               /\ _display s4
                  = match shown_frame Sample.draw_text sample_built second
                    with
                    | returned g2 => Some g2
                    | raised _ => Some g
                    end)).
Proof.
  assert (Q : after_queue sample_built = []) by (vm_compute; reflexivity).
  assert (N : forallb (fun ev => negb (is_timer ev)) hide_guidelines = true)
    by (vm_compute; reflexivity).
  assert (R : fst (sample_update (Some (Sample.picture false)) sample_built)
              = None) by (vm_compute; reflexivity).
  split; [split; [exact Q | split; [exact N | exact R]] |].
  exact (proj1 (change_reaches_second_frame Sample.process_next_frame
                  Sample.application Sample.get_available_sources
                  Sample.draw_text sample_built
                  (Some (Sample.picture false)) hide_guidelines Q N R)).
Defined.

(** C4 fails as stated.  A camera that delivers one good picture, then a
    picture of floats, then breaks down.  [show] puts the good picture on
    display and registers the callback with the picture of floats.  When that
    callback runs the update raises at [Image.fromarray], before [after] is
    reached: no callback is pending, and none will be, whatever timer events
    follow; the good picture stays on display.  The same happens when
    [process_next_frame] raises, and, for a window without height, when
    there is no frame and the placeholder cannot be made. *)
Lemma cadence_stops_on_fault :
  (let s0 := started Sample.faulty_process_next_frame
               Sample.get_available_sources Sample.draw_text (4, 2)
               (Some 1) in
   let run := mainloop Sample.faulty_process_next_frame
                Sample.quiet_application Sample.draw_text in
   after_queue s0 = [mkTimer 20 (Some Sample.float_picture)]
   /\ _updateVideoFrame Sample.faulty_process_next_frame Sample.draw_text
        (Some Sample.float_picture) (with_after_queue [] s0)
      = (Some TypeError, with_after_queue [] s0)
   /\ after_queue (run [timer_fires] s0) = []
   /\ after_queue (run [timer_fires; timer_fires; timer_fires] s0) = []
   /\ _display (run [timer_fires; timer_fires; timer_fires] s0)
      = Some (Sample.picture false))
  /\ (let s := __init__ Sample.get_available_sources (4, 2) None in
      let r := _updateVideoFrame Sample.faulty_process_next_frame
                 Sample.draw_text (Some (Sample.picture false)) s in
      fst r = Some RuntimeError
      /\ _display (snd r) = Some (Sample.picture false)
      /\ after_queue (snd r) = []
      /\ fst (show Sample.faulty_process_next_frame Sample.draw_text s)
         = Some RuntimeError)
  /\ (let s := __init__ Sample.get_available_sources (4, 0) false in
      fst (sample_update None s) = Some cv2_error
      /\ after_queue (snd (sample_update None s)) = []).
Proof.
  cbv zeta.
  split; [| split].
  - split; [vm_compute; reflexivity |].
    split; [vm_compute; reflexivity |].
    split; [vm_compute; reflexivity |].
    split; vm_compute; reflexivity.
  - split; [vm_compute; reflexivity |].
    split; [vm_compute; reflexivity |].
    split; vm_compute; reflexivity.
  - split; vm_compute; reflexivity.
Qed.

(** A pipeline for the sample installation: park assistance, with an
    obstacle nearer than the threshold in every frame. *)
Definition sample_pipeline : Pipeline.State :=
  {| Pipeline.mode := ParkAssistant;
     Pipeline.properties := Pipeline.mkDetection 50 1;
     Pipeline.muted := false;
     Pipeline.guidelines_visible := true;
     Pipeline.feed := repeat (Some (Sample.picture false)) 5;
     Pipeline.run_length := 0;
     Pipeline.alert := Pipeline.mkAlert false Pipeline.NoReason;
     Pipeline.audible := false |}.

Abbreviation pipeline_step :=
  (Pipeline.process_next_frame (fun f : MatLike => f) (fun f : MatLike => f)
     (fun _ : MatLike => Some 20%Z)).

Abbreviation pipeline_told :=
  (Pipeline.application (fun _ : Z => @nil (option MatLike))).

Abbreviation pipeline_run :=
  (fun events : list Event =>
     mainloop pipeline_step pipeline_told Sample.draw_text events
       (started pipeline_step Sample.get_available_sources Sample.draw_text
          (4, 2) sample_pipeline)).


(** X8 at work: the sample window after two frames and a mode switch. *)
Lemma display_always_fits_sample :
  (0 < fst (4, 2) /\ 0 < snd (4, 2))
  /\ (let s := sample_mainloop
                 [timer_fires; switch_mode Configuration; timer_fires]
                 sample_started in
      _display_size s = (2, 4)
      /\ (forall f : MatLike,
             _display s = Some f ->
             nth_error (shape f) 0 = Some 2
             /\ nth_error (shape f) 1 = Some 4)
      /\ exists f : MatLike, _display s = Some f).
Proof.
  assert (W : 0 < fst (4, 2)) by (simpl; lia).
  assert (H : 0 < snd (4, 2)) by (simpl; lia).
  split; [split; [exact W | exact H] |].
  destruct (display_always_fits Sample.process_next_frame Sample.application
              Sample.get_available_sources Sample.draw_text (4, 2) false
              [timer_fires; switch_mode Configuration; timer_fires] W H)
    as (A & B & C & _).
  split; [exact A |].
  split; [exact B |].
  apply C; vm_compute; reflexivity.
Defined.

(** X9 at work: the sample window after three timer callbacks. *)
Lemma frames_shown_in_order_sample :
  (0 < fst (4, 2) /\ 0 < snd (4, 2)
   /\ after_queue (sample_mainloop (repeat timer_fires 3) sample_started)
      <> [])
  /\ (let s := sample_mainloop (repeat timer_fires 3) sample_started in
      exists (f : option MatLike) (g : MatLike) (next : option MatLike),
        produced Sample.process_next_frame 3 false = returned f
        /\ shown_frame Sample.draw_text sample_built f = returned g
        /\ _display s = Some g
        /\ produced Sample.process_next_frame 4 false = returned next
        /\ after_queue s = [mkTimer 20 next]
        /\ _video_source s
           = engine_after Sample.process_next_frame (3 + 2) false).
Proof.
  assert (W : 0 < fst (4, 2)) by (simpl; lia).
  assert (H : 0 < snd (4, 2)) by (simpl; lia).
  assert (Q : after_queue (sample_mainloop (repeat timer_fires 3)
                             sample_started) <> [])
    by (vm_compute; discriminate).
  split; [split; [exact W | split; [exact H | exact Q]] |].
  exact (frames_shown_in_order Sample.process_next_frame Sample.application
           Sample.get_available_sources Sample.draw_text (4, 2) false 3
           W H Q).
Defined.

(** X13 at work: the sample interface in the Configuration mode, with the
    detection properties open.  The reload takes the 'Configuration' cascade
    off the bar and the frame off the screen. *)
Lemma reload_removes_last_entry_only_sample :
  let s := sample_mainloop
             [switch_mode Configuration; choose CONFIGURATION_MENU 6]
             sample_started in
  _menubar s <> []
  /\ (let s' := _reload_default_layout s in
      _menubar s'
      = (if 3 <? List.length (_menubar s)
         then removelast (_menubar s)
         else _menubar s)
      /\ firstn 3 (_menubar s') = firstn 3 (_menubar s)
      /\ viewable_properties_frames s' = viewable_properties_frames s - 1
      /\ controls (with_menubar []
                     (with_image_properties_frame None
                        (with_guidelines_properties_frame None
                           (with_detection_properties_frame None s'))))
         = controls (with_menubar []
                       (with_image_properties_frame None
                          (with_guidelines_properties_frame None
                             (with_detection_properties_frame None s))))).
Proof.
  cbv zeta; split; [vm_compute; discriminate |].
  apply reload_removes_last_entry_only; vm_compute; discriminate.
Defined.
